(** * ai.py: natural-language-to-shell assistant, verified against its specification

    A shallow embedding of [src/ai.py] and the properties its specification
    states about it.

    Conventions of the embedding.
    - A Python [str] is a Rocq [string]; a character [ascii] stands for the
      code point of the same number, so the development covers the texts
      whose code points lie in U+0000..U+00FF.  [str.isspace] and
      [str.lower] are written out for that range.
    - [print], [input], [subprocess.run] and [sys.exit] are effects: a run is
      a trace of events together with either a value or an exit status
      (the monad [M] below).
    - What the outside world answers (the HTTP reply of the inference server,
      the line typed at a prompt, the result of the spawned shell) is an
      argument of the function that asks for it.
    - [os.environ] is a finite map from names to values.
    - What [parser.parse_args()] makes of the command line (the arguments,
      a refusal with status 2, the help with status 0) is an argument of
      [script], which models the run of the file from its first line;
      [main] is the model of the function [main] from the line after
      [parse_args] on.
    - Exceptions are modelled where the script handles them: the request
      errors in [query_ollama], [ValueError] in [is_destructive],
      [EOFError] and [KeyboardInterrupt] at a prompt, [Exception] around
      [subprocess.run].  A reply whose JSON is no object, or whose
      "response" entry is no string, and an interrupt outside a prompt are
      outside the model. *)

From Stdlib Require Import String Ascii List ZArith Bool Lia.
From stdpp Require Import gmap strings.
Import ListNotations.

Local Open Scope string_scope.
Local Open Scope list_scope.

(* stdpp freezes [String.append]; the proofs below compute with it. *)
#[local] Arguments String.append !_ _ / : simpl nomatch.

(** ** Python string built-ins used by the script *)

Module Py.

Definition newline : ascii := "010"%char.
Definition dquote : ascii := "034"%char.
Definition squote : ascii := "039"%char.
Definition backslash : ascii := "092"%char.
Definition backtick : ascii := "096"%char.

(** [c.isspace()] for a code point below 256: the ASCII controls
    TAB, LF, VT, FF, CR, the separators FS, GS, RS, US, the space, and the
    two Latin-1 blanks NEL (0x85) and NBSP (0xA0). *)
Definition isspace (c : ascii) : bool :=
  let n := N_of_ascii c in
  ((9 <=? n) && (n <=? 13) || (28 <=? n) && (n <=? 32)
   || (n =? 133) || (n =? 160))%N.

(** [c.lower()] for a code point below 256: A-Z, and the Latin-1 capitals
    0xC0..0xDE except the multiplication sign 0xD7, move up by 32. *)
Definition lower_char (c : ascii) : ascii :=
  let n := N_of_ascii c in
  if ((65 <=? n) && (n <=? 90)
      || (192 <=? n) && (n <=? 222) && negb (n =? 215))%N
  then ascii_of_N (n + 32) else c.

(** [s.lower()] *)
Fixpoint lower (s : string) : string :=
  match s with
  | EmptyString => EmptyString
  | String c s' => String (lower_char c) (lower s')
  end.

(** [s.lstrip()] *)
Fixpoint lstrip (s : string) : string :=
  match s with
  | EmptyString => EmptyString
  | String c s' => if isspace c then lstrip s' else s
  end.

(** [s.rstrip()] *)
Fixpoint rstrip (s : string) : string :=
  match s with
  | EmptyString => EmptyString
  | String c s' =>
      match rstrip s' with
      | EmptyString => if isspace c then EmptyString else String c EmptyString
      | r => String c r
      end
  end.

(** [s.strip()] *)
Definition strip (s : string) : string := rstrip (lstrip s).

(** [s.split(sep)] for a one-character separator; never the empty list. *)
Fixpoint split (sep : ascii) (s : string) : list string :=
  match s with
  | EmptyString => [EmptyString]
  | String c s' =>
      if Ascii.eqb c sep then EmptyString :: split sep s'
      else match split sep s' with
           | [] => [String c EmptyString]
           | l :: ls => String c l :: ls
           end
  end.

(** [s.startswith(p)] *)
Fixpoint startswith (s p : string) {struct p} : bool :=
  match p, s with
  | EmptyString, _ => true
  | String _ _, EmptyString => false
  | String b p', String a s' => Ascii.eqb a b && startswith s' p'
  end.

(** [s.startswith((p1, ..., pn))] *)
Definition startswith_any (s : string) (ps : list string) : bool :=
  existsb (startswith s) ps.

(** [s.endswith(p)] *)
Fixpoint endswith (s p : string) : bool :=
  String.eqb s p
  || match s with
     | EmptyString => false
     | String _ s' => endswith s' p
     end.

(** [p in s] *)
Fixpoint contains (s p : string) : bool :=
  startswith s p
  || match s with
     | EmptyString => false
     | String _ s' => contains s' p
     end.

(** [bool(s)]: a string is true when it is not empty. *)
Definition truthy (s : string) : bool :=
  match s with EmptyString => false | _ => true end.

Fixpoint drop (n : nat) (s : string) : string :=
  match n, s with
  | O, _ => s
  | S n', String _ s' => drop n' s'
  | S _, EmptyString => EmptyString
  end.

Fixpoint take (n : nat) (s : string) : string :=
  match n, s with
  | S n', String c s' => String c (take n' s')
  | _, _ => EmptyString
  end.

(** Python clamps a slice bound to the string: a negative bound counts from
    the end, and what falls outside is cut to [0] or [len s]. *)
Definition clamp (len i : Z) : Z :=
  if (i <? 0)%Z then Z.max (i + len) 0 else Z.min i len.

(** [s[start:stop]]; [stop = None] is the open slice [s[start:]]. *)
Definition slice (s : string) (start : Z) (stop : option Z) : string :=
  let len := Z.of_nat (String.length s) in
  let a := clamp len start in
  let b := match stop with Some j => clamp len j | None => len end in
  take (Z.to_nat (b - a)) (drop (Z.to_nat a) s).

End Py.

(** ** [shlex.split]

    [shlex.split(s)] builds [shlex(s, posix=True)], sets
    [whitespace_split = True] and [commenters = ''], and collects the tokens
    [read_token] returns until it returns [None].  [punctuation_chars] is
    empty, so the state ['c'] never arises. *)

Module Shlex.

Definition whitespace : string :=
  String " " (String "009" (String "013" (String "010" EmptyString))).
Definition quotes : string := String Py.squote (String Py.dquote EmptyString).
Definition escape : string := String Py.backslash EmptyString.
Definition escapedquotes : string := String Py.dquote EmptyString.

(** [c in chars] for a character [c]. *)
Fixpoint char_in (c : ascii) (chars : string) : bool :=
  match chars with
  | EmptyString => false
  | String d chars' => Ascii.eqb c d || char_in c chars'
  end.

(** The values of [self.state]: [None], [' '], ['a'], a quote character, an
    escape character. *)
Inductive lex_state : Type :=
| st_eof
| st_space
| st_word
| st_quote (q : ascii)
| st_escape (e : ascii).

Definition in_quotes (st : lex_state) : bool :=
  match st with st_quote _ => true | _ => false end.

(** [nextchar != escapedstate], where [escapedstate] is a state. *)
Definition differs_from_state (c : ascii) (st : lex_state) : bool :=
  match st with
  | st_quote q => negb (Ascii.eqb c q)
  | st_escape e => negb (Ascii.eqb c e)
  | _ => true
  end.

Definition append_char (token : string) (c : ascii) : string :=
  token +:+ String c EmptyString.

(** The end of [read_token]: [result = self.token], and [None], the end of
    the input, when nothing was quoted and the token is empty. *)
Definition result_of (quoted : bool) (token : string) : option string :=
  if negb quoted && negb (Py.truthy token) then None else Some token.

(** One call of [read_token].  The arguments are [self.state], the locals
    [escapedstate] and [quoted], [self.token], and what [self.instream] has
    left; a call starts with [escapedstate = ' '], [quoted = False] and
    [self.token = '']; the recursion is the [while True] loop, [nextchar]
    being [self.instream.read(1)].  The value is [None] when [ValueError]
    is raised, and else the token returned, [self.state] and what is left
    of [self.instream].  In the state [' '] and the state ['a'] the
    branches for [wordchars] and for [whitespace_split] do the same, and
    no quote or escape character is a word character, so the word
    characters need no test of their own; [commenters] and
    [punctuation_chars] are empty. *)
Fixpoint read_token (state escapedstate : lex_state) (quoted : bool)
    (token : string) (instream : string) {struct instream}
  : option (option string * lex_state * string) :=
  match instream with
  | EmptyString =>
      match state with
      | st_eof => Some (result_of quoted EmptyString, st_eof, EmptyString)
      | st_space | st_word => Some (result_of quoted token, st_eof, EmptyString)
      | st_quote _ => None          (* No closing quotation *)
      | st_escape _ => None         (* No escaped character *)
      end
  | String nextchar rest =>
      match state with
      | st_eof => Some (result_of quoted EmptyString, st_eof, rest)
      | st_space =>
          if char_in nextchar whitespace then
            if Py.truthy token || quoted
            then Some (result_of quoted token, st_space, rest)
            else read_token st_space escapedstate quoted token rest
          else if char_in nextchar escape then
            read_token (st_escape nextchar) st_word quoted token rest
          else if char_in nextchar quotes then
            read_token (st_quote nextchar) escapedstate quoted token rest
          else
            read_token st_word escapedstate quoted (String nextchar EmptyString) rest
      | st_quote q =>
          if Ascii.eqb nextchar q then
            read_token st_word escapedstate true token rest
          else if char_in nextchar escape && char_in q escapedquotes then
            read_token (st_escape nextchar) (st_quote q) true token rest
          else
            read_token (st_quote q) escapedstate true (append_char token nextchar) rest
      | st_escape e =>
          let token' :=
            if in_quotes escapedstate && negb (Ascii.eqb nextchar e)
               && differs_from_state nextchar escapedstate
            then append_char token e else token in
          read_token escapedstate escapedstate quoted (append_char token' nextchar) rest
      | st_word =>
          if char_in nextchar whitespace then
            if Py.truthy token || quoted
            then Some (result_of quoted token, st_space, rest)
            else read_token st_space escapedstate quoted token rest
          else if char_in nextchar quotes then
            read_token (st_quote nextchar) escapedstate quoted token rest
          else if char_in nextchar escape then
            read_token (st_escape nextchar) st_word quoted token rest
          else
            read_token st_word escapedstate quoted (append_char token nextchar) rest
      end
  end.

(** A token in front of the tokens that follow; [ValueError] in a later
    call loses the tokens read so far. *)
Definition emit (token : string) (more : option (list string))
  : option (list string) :=
  match more with
  | Some toks => Some (token :: toks)
  | None => None
  end.

(** [list(lex)]: [read_token] is called until it returns [None].  [calls]
    bounds the number of calls. *)
Fixpoint tokens (calls : nat) (state : lex_state) (instream : string)
  : option (list string) :=
  match calls with
  | O => Some []
  | S calls' =>
      match read_token state st_space false EmptyString instream with
      | None => None
      | Some (None, _, _) => Some []
      | Some (Some token, state', rest) => emit token (tokens calls' state' rest)
      end
  end.

(** [shlex.split(s)]: [Some tokens], or [None] when [ValueError] is raised.
    Every call but the last reads at least one character, so one call more
    than [s] has characters is enough ([tokens_lex] below). *)
Definition split (s : string) : option (list string) :=
  tokens (S (String.length s)) st_space s.

(** The same lexer as one pass over the input, without a bound: where
    [read_token] returns a token, the pass goes on with the next call. *)
Fixpoint lex (state escapedstate : lex_state) (quoted : bool)
    (token : string) (instream : string) {struct instream}
  : option (list string) :=
  let stop (result : option string) (more : option (list string)) :=
    match result with
    | Some token => emit token more
    | None => Some []
    end in
  match instream with
  | EmptyString =>
      match state with
      | st_eof => stop (result_of quoted EmptyString) (Some [])
      | st_space | st_word => stop (result_of quoted token) (Some [])
      | st_quote _ => None
      | st_escape _ => None
      end
  | String nextchar rest =>
      match state with
      | st_eof =>
          stop (result_of quoted EmptyString)
               (lex st_eof st_space false EmptyString rest)
      | st_space =>
          if char_in nextchar whitespace then
            if Py.truthy token || quoted
            then stop (result_of quoted token)
                      (lex st_space st_space false EmptyString rest)
            else lex st_space escapedstate quoted token rest
          else if char_in nextchar escape then
            lex (st_escape nextchar) st_word quoted token rest
          else if char_in nextchar quotes then
            lex (st_quote nextchar) escapedstate quoted token rest
          else
            lex st_word escapedstate quoted (String nextchar EmptyString) rest
      | st_quote q =>
          if Ascii.eqb nextchar q then
            lex st_word escapedstate true token rest
          else if char_in nextchar escape && char_in q escapedquotes then
            lex (st_escape nextchar) (st_quote q) true token rest
          else
            lex (st_quote q) escapedstate true (append_char token nextchar) rest
      | st_escape e =>
          let token' :=
            if in_quotes escapedstate && negb (Ascii.eqb nextchar e)
               && differs_from_state nextchar escapedstate
            then append_char token e else token in
          lex escapedstate escapedstate quoted (append_char token' nextchar) rest
      | st_word =>
          if char_in nextchar whitespace then
            if Py.truthy token || quoted
            then stop (result_of quoted token)
                      (lex st_space st_space false EmptyString rest)
            else lex st_space escapedstate quoted token rest
          else if char_in nextchar quotes then
            lex (st_quote nextchar) escapedstate quoted token rest
          else if char_in nextchar escape then
            lex (st_escape nextchar) st_word quoted token rest
          else
            lex st_word escapedstate quoted (append_char token nextchar) rest
      end
  end.

End Shlex.

(** ** Effects: traces, exit, and what the outside world answers *)

Inductive stream : Type := stdout | stderr.

(** The texts the script prints, one constructor per [print] or [input]
    call of the source, with the values its f-string interpolates. *)
Inductive message : Type :=
| InfoNoEnvFile
| InfoCopyExample
| SendingPrompt (model api : string)
| ErrNoValidCommand
| RawModelResponse (command : string)
| ErrConnect (api : string)
| HintOllamaRunning
| ErrTimeout
| ErrRequest
| OllamaErrorDetails (details : string)
| ErrDecode
| ReceivedResponse (text : string)
| WarnSudo
| WarnUnparsed (command : string)
| Executing (command : string)
| Rule
| OutputHeader
| Text (s : string)
| ErrorsHeader
| WarnErrorCode (returncode : Z)
| ErrExecute
| Suggested (command : string)
| AskDestructive
| AskPlain
| CancelledByUser
| Cancelled
| WarnNoConfirmation
| NotExecuted
| UsageError                  (* argparse: the usage line and the error *)
| HelpText.                   (* argparse: the text of [-h] *)

Inductive event : Type :=
| Print (to : stream) (msg : message)
| Post (api model prompt_text : string)     (* requests.post *)
| Input (prompt : message)                  (* input(prompt) *)
| SubprocessRun (command : string).         (* subprocess.run(command, shell=True) *)

Inductive result (A : Type) : Type :=
| Return (a : A)
| SysExit (code : Z).
Arguments Return {A} a.
Arguments SysExit {A} code.

(** A computation: what it did, and how it ended. *)
Record M (A : Type) : Type := Run { trace : list event; outcome : result A }.
Arguments Run {A} trace outcome.
Arguments trace {A} _.
Arguments outcome {A} _.

#[global] Instance M_ret : MRet M := fun A a => Run [] (Return a).

#[global] Instance M_bind : MBind M := fun A B f m =>
  match outcome m with
  | Return a => Run (trace m ++ trace (f a)) (outcome (f a))
  | SysExit code => Run (trace m) (SysExit code)
  end.

Definition emit (e : event) : M unit := Run [e] (Return tt).
Definition print (to : stream) (msg : message) : M unit := emit (Print to msg).
Definition sys_exit {A : Type} (code : Z) : M A := Run [] (SysExit code).

(** The exit status of the process whose main computation is [m]: the
    argument of [sys.exit], or 0 when the script runs to its end. *)
Definition exit_status {A : Type} (m : M A) : Z :=
  match outcome m with
  | Return _ => 0%Z
  | SysExit code => code
  end.

(** [subprocess.run] was reached. *)
Definition is_run (e : event) : bool :=
  match e with SubprocessRun _ => true | _ => false end.
Definition executed {A : Type} (m : M A) : bool := existsb is_run (trace m).

(** [input] was reached. *)
Definition is_input (e : event) : bool :=
  match e with Input _ => true | _ => false end.
Definition prompted {A : Type} (m : M A) : bool := existsb is_input (trace m).

(** What [requests.post], [raise_for_status] and [response.json()] come to. *)
Inductive http_reply : Type :=
| ConnectionError
| Timeout
| RequestException (details : option string)
    (* any other request error; [details] is [response.json()] when the
       handler can still read it *)
| JSONDecodeError (request_exception : bool) (text : string)
    (* the body is not JSON; [request_exception] tells whether the error
       raised is also a [RequestException], as in recent [requests] *)
| Reply (response : option string).
    (* a JSON object; [response] is its "response" entry, a string *)

(** What [input] comes to. *)
Inductive input_result : Type :=
| Line (s : string)
| EOFError
| KeyboardInterrupt.

(** What [subprocess.run] comes to: a [CompletedProcess], or an exception. *)
Inductive run_result : Type :=
| Completed (out err : string) (returncode : Z)
| Raised.

Record world : Type := World {
  reply : http_reply;
  typed : input_result;
  spawned : run_result
}.

(** ** Configuration *)

Definition DEFAULT_OLLAMA_API_URL : string := "http://localhost:11434/api/generate".
Definition DEFAULT_OLLAMA_MODEL : string := "gemma3:1b".

(** [load_dotenv(dotenv_path)] of python-dotenv with its default
    [override=False]; [values] is the dictionary the file parses to, where a
    key written without [=] has the value [None]:
      for k, v in values.items():
          if k in os.environ: continue
          if v is not None: os.environ[k] = v *)
Definition load_dotenv (values : gmap string (option string))
    (environ : gmap string string) : gmap string string :=
  map_fold (fun k v env =>
              match env !! k with
              | Some _ => env
              | None => match v with Some x => <[k:=x]> env | None => env end
              end) environ values.

(** [os.getenv(key, default)] *)
Definition getenv (environ : gmap string string) (key default : string) : string :=
  match environ !! key with Some v => v | None => default end.

(** [os.environ] once the script has loaded its [.env] file; [dotenv] is
    [None] when [os.path.exists(dotenv_path)] is false. *)
Definition environ_loaded (environ : gmap string string)
    (dotenv : option (gmap string (option string))) : gmap string string :=
  match dotenv with
  | Some values => load_dotenv values environ
  | None => environ
  end.

Definition load_configuration (environ : gmap string string)
    (dotenv : option (gmap string (option string))) : M (string * string) :=
  let environ := environ_loaded environ dotenv in
  let api_url := getenv environ "OLLAMA_API_URL" DEFAULT_OLLAMA_API_URL in
  let default_model := getenv environ "OLLAMA_DEFAULT_MODEL" DEFAULT_OLLAMA_MODEL in
  let using_defaults :=
    String.eqb api_url DEFAULT_OLLAMA_API_URL
    && String.eqb default_model DEFAULT_OLLAMA_MODEL in
  (if negb (bool_decide (is_Some dotenv)) && using_defaults
   then print stderr InfoNoEnvFile;; print stderr InfoCopyExample
   else mret tt);;
  mret (api_url, default_model).

Record config : Type := Config {
  OLLAMA_API_URL : string;
  OLLAMA_DEFAULT_MODEL : string
}.

(** ** [query_ollama] *)

(** The prefixes of a line the clean-up passes over, compared with the line
    in lower case. *)
Definition skipped_prefixes : list string :=
  ["here is"; "the command is"; "`"; "#"].

(** The body of the [if] of the clean-up loop: what a chosen line becomes. *)
Definition unfence (clean_line : string) : string :=
  if Py.startswith clean_line "```" && Py.endswith clean_line "```" then
    let clean_line := Py.strip (Py.slice clean_line 3 (Some (-3)%Z)) in
    if Py.startswith (Py.lower clean_line) "bash"
    then Py.strip (Py.slice clean_line 4 None)
    else clean_line
  else if Py.startswith clean_line "`" && Py.endswith clean_line "`" then
    Py.strip (Py.slice clean_line 1 (Some (-1)%Z))
  else clean_line.

(** The clean-up loop: [potential_command] after [for line in lines],
    which stops at the first line it takes. *)
Fixpoint potential_command (lines : list string) : string :=
  match lines with
  | [] => EmptyString
  | line :: lines' =>
      let clean_line := Py.strip line in
      if Py.truthy clean_line
         && negb (Py.startswith_any (Py.lower clean_line) skipped_prefixes)
      then unfence clean_line
      else potential_command lines'
  end.

(** The [try] body of [query_ollama] from [data.get("response", "")] on. *)
Definition cleanup (response : option string) : M (option string) :=
  let command := Py.strip (default EmptyString response) in
  let lines := Py.split Py.newline command in
  let potential_command := potential_command lines in
  if negb (Py.truthy potential_command)
     || Py.contains potential_command "ERROR:"
  then
    print stderr ErrNoValidCommand;;
    print stderr (RawModelResponse command);;
    mret None
  else mret (Some potential_command).

Definition query_ollama (cfg : config) (CURRENT_OLLAMA_MODEL : string)
    (prompt_text : string) (r : http_reply) : M (option string) :=
  print stdout (SendingPrompt CURRENT_OLLAMA_MODEL (OLLAMA_API_URL cfg));;
  emit (Post (OLLAMA_API_URL cfg) CURRENT_OLLAMA_MODEL prompt_text);;
  match r with
  | Reply response => cleanup response
  | ConnectionError =>
      print stderr (ErrConnect (OLLAMA_API_URL cfg));;
      print stderr HintOllamaRunning;;
      mret None
  | Timeout =>
      print stderr ErrTimeout;;
      mret None
  | RequestException details =>
      print stderr ErrRequest;;
      match details with
      | Some d => print stderr (OllamaErrorDetails d)
      | None => mret tt
      end;;
      mret None
  | JSONDecodeError true _ =>
      (* caught by [except RequestException]; [response.json()] fails again *)
      print stderr ErrRequest;;
      mret None
  | JSONDecodeError false text =>
      print stderr ErrDecode;;
      print stderr (ReceivedResponse text);;
      mret None
  end.

(** ** [is_destructive] *)

Definition DESTRUCTIVE_COMMANDS : list string :=
  [ "rm"; "mv"; "kill"; "pkill"; "killall"; "shutdown"; "reboot"; "halt";
    "shred"; "dd"; "mkfs"; "fdisk"; "userdel"; "groupdel"; "chmod"; "chown";
    "sudo"; "su"; "docker rm"; "docker rmi"; "kubectl delete" ].

(** The test of the [for] loop over the table. *)
Definition matches (actual_command command destructive : string) : bool :=
  String.eqb actual_command destructive
  || Py.startswith (Py.strip command) (destructive +:+ " ").

Definition is_destructive (command : string) : M bool :=
  if negb (Py.truthy command) then mret false
  else
    match Shlex.split command with
    | None =>
        print stderr (WarnUnparsed command);;
        mret true
    | Some command_parts =>
        match command_parts with
        | [] => mret false
        | first_command :: _ =>
            if String.eqb first_command "sudo"
               && (1 <? List.length command_parts)%nat
            then
              print stdout WarnSudo;;
              mret true
            else
              let actual_command := first_command in
              if existsb (matches actual_command command) DESTRUCTIVE_COMMANDS
              then mret true
              else mret false
        end
    end.

(** ** [execute_command] *)

Definition execute_command (command : string) (r : run_result) : M unit :=
  print stdout (Executing command);;
  print stdout Rule;;
  emit (SubprocessRun command);;
  match r with
  | Completed out err returncode =>
      (if Py.truthy out
       then print stdout OutputHeader;; print stdout (Text out)
       else mret tt);;
      (if Py.truthy err
       then print stderr ErrorsHeader;; print stderr (Text err)
       else mret tt);;
      (if negb (returncode =? 0)%Z
       then print stderr (WarnErrorCode returncode)
       else mret tt)
  | Raised =>
      print stderr ErrExecute
  end.

(** ** [main] *)

Record arguments : Type := Arguments {
  prompt : string;
  interactive : bool;
  yes : bool;
  model : option string       (* [--model]; the default is OLLAMA_DEFAULT_MODEL *)
}.

(** [confirm = input(prompt)] and the test [confirm.lower() == 'y'], inside
    [try ... except (EOFError, KeyboardInterrupt)]. *)
Definition ask (question : message) (answer : input_result) : M bool :=
  emit (Input question);;
  match answer with
  | Line confirm =>
      if String.eqb (Py.lower confirm) "y" then mret true
      else print stdout CancelledByUser;; mret false
  | EOFError | KeyboardInterrupt =>
      print stdout Cancelled;;
      sys_exit 0
  end.

(** The part of [main] that sets [execute]. *)
Definition confirmation (args : arguments) (command_to_run : string)
    (answer : input_result) : M bool :=
  if interactive args then
    destructive ← is_destructive command_to_run;
    if destructive && negb (yes args) then ask AskDestructive answer
    else if destructive && yes args then
      print stdout WarnNoConfirmation;;
      mret true
    else if negb (yes args) then ask AskPlain answer
    else mret true
  else
    print stdout NotExecuted;;
    mret false.

(** [bool(command_to_run)] for a value that is [None] or a string. *)
Definition holds_command (command_to_run : option string) : bool :=
  match command_to_run with
  | Some command => Py.truthy command
  | None => false
  end.

(** [main] from the line after [args = parser.parse_args()] on. *)
Definition main (cfg : config) (args : arguments) (w : world) : M unit :=
  let CURRENT_OLLAMA_MODEL := default (OLLAMA_DEFAULT_MODEL cfg) (model args) in
  command_to_run ← query_ollama cfg CURRENT_OLLAMA_MODEL (prompt args) (reply w);
  if negb (holds_command command_to_run) then sys_exit 1
  else
    let command_to_run := default EmptyString command_to_run in
    print stdout (Suggested command_to_run);;
    execute ← confirmation args command_to_run (typed w);
    if (execute : bool) then execute_command command_to_run (spawned w)
    else mret tt.

(** What [parser.parse_args()] comes to on the command line of the run:
    the arguments; or a command line argparse refuses ([--prompt] missing,
    an unknown flag, a flag without its value); or [-h]. *)
Inductive command_line : Type :=
| Parsed (args : arguments)
| Refused
| Help.

(** [parser.parse_args()]: argparse prints the usage and the error on the
    error stream and exits with status 2, or prints the help text and
    exits with status 0, or returns the arguments. *)
Definition parse_args (argv : command_line) : M arguments :=
  match argv with
  | Parsed args => mret args
  | Refused => print stderr UsageError;; sys_exit 2
  | Help => print stdout HelpText;; sys_exit 0
  end.

(** The script from its first line: the configuration is loaded when the
    module is, then [main] runs, which starts with [parse_args]. *)
Definition script (environ : gmap string string)
    (dotenv : option (gmap string (option string)))
    (argv : command_line) (w : world) : M unit :=
  '(api_url, default_model) ← load_configuration environ dotenv;
  args ← parse_args argv;
  main (Config api_url default_model) args w.

Definition cfg0 : config := Config DEFAULT_OLLAMA_API_URL DEFAULT_OLLAMA_MODEL.

(** * Predicates and inputs of the statements *)

(** The two ways the classifier calls a tokenized command destructive:
    [sudo] with something after it, and a hit in the table, by the first
    token or by the start of the trimmed text. *)
Definition elevated_privilege (first_command : string) (rest : list string) : Prop :=
  first_command = "sudo" /\ rest <> [].

Definition matched_keyword (first_command command : string) : Prop :=
  In first_command DESTRUCTIVE_COMMANDS \/
  exists d, In d DESTRUCTIVE_COMMANDS /\
            Py.startswith (Py.strip command) (d +:+ " ") = true.

Definition echo_unterminated : string :=
  "echo " +:+ String Py.dquote "unterminated".

(** A character the lexer adds to the word in progress: no blank, no quote,
    no backslash. *)
Definition plain_char (c : ascii) : bool :=
  negb (Shlex.char_in c Shlex.whitespace)
  && negb (Shlex.char_in c Shlex.quotes)
  && negb (Shlex.char_in c Shlex.escape).

Fixpoint plain_word (s : string) : bool :=
  match s with
  | EmptyString => true
  | String c s' => plain_char c && plain_word s'
  end.

(** The first token of the command: what the first call of [read_token]
    returns, whether or not the rest of the command tokenizes. *)
Definition first_token (command : string) : option string :=
  match Shlex.read_token Shlex.st_space Shlex.st_space false EmptyString command with
  | Some (Some token, _, _) => Some token
  | _ => None
  end.

(** A destructive keyword comes only after a separator, a pipe or another
    leading command: the command has a first token, what leads the command
    is no destructive keyword (neither the first token nor the start of the
    trimmed text is an entry of the table), and an entry of the table
    stands somewhere behind the first character. *)
Definition keyword_only_later (command : string) : Prop :=
  exists (first_command pre keyword post : string),
    first_token command = Some first_command /\
    ~ matched_keyword first_command command /\
    command = pre +:+ keyword +:+ post /\
    pre <> EmptyString /\
    In keyword DESTRUCTIVE_COMMANDS.

(** The lines the clean-up loop looks at. *)
Definition response_lines (response : option string) : list string :=
  Py.split Py.newline (Py.strip (default EmptyString response)).

(** The ways the inference stage fails, as the specification lists them. *)
Inductive inference_failure : http_reply -> Prop :=
| connection_failure : inference_failure ConnectionError
| timeout : inference_failure Timeout
| http_error (details : option string) : inference_failure (RequestException details)
| payload_decode_failure (b : bool) (text : string) :
    inference_failure (JSONDecodeError b text)
| empty_response (response : option string) :
    potential_command (response_lines response) = EmptyString ->
    inference_failure (Reply response)
| sentinel_response (response : option string) :
    Py.contains (potential_command (response_lines response)) "ERROR:" = true ->
    inference_failure (Reply response).

(** The user typed [y] or [Y] at the prompt. *)
Definition accepted (answer : input_result) : Prop :=
  exists confirm, answer = Line confirm /\ (confirm = "y" \/ confirm = "Y").

(** The interrupt or the end of input came in place of a line. *)
Definition interrupted (answer : input_result) : Prop :=
  answer = EOFError \/ answer = KeyboardInterrupt.

(** What [is_destructive] returns. *)
Definition verdict (command : string) : bool :=
  match outcome (is_destructive command) with
  | Return b => b
  | SysExit _ => false
  end.

Definition world0 : world :=
  World ConnectionError (Line "y") (Completed "out" EmptyString 0).

(** The model answers [rm temporary.log], and the command fails. *)
Definition world_rm : world :=
  World (Reply (Some "rm temporary.log")) EOFError
        (Completed EmptyString "rm: cannot remove 'temporary.log'" 1).

Definition args_iy : arguments := Arguments "delete the temporary file" true true None.

(** What the [.env] file assigns to [key], if the file exists and does. *)
Definition file_value (dotenv : option (gmap string (option string)))
    (key : string) : option string :=
  match dotenv with
  | Some values => match values !! key with Some (Some v) => Some v | _ => None end
  | None => None
  end.

(** The precedence of the specification: environment, then file, then
    default. *)
Definition resolve (environ : gmap string string)
    (dotenv : option (gmap string (option string))) (key default : string) : string :=
  match environ !! key with
  | Some v => v
  | None => match file_value dotenv key with Some v => v | None => default end
  end.

(** Neither the environment nor the file gives a value to either variable. *)
Definition nothing_supplied (environ : gmap string string)
    (dotenv : option (gmap string (option string))) : Prop :=
  forall key, key = "OLLAMA_API_URL" \/ key = "OLLAMA_DEFAULT_MODEL" ->
              environ !! key = None /\ file_value dotenv key = None.

Definition diagnostic : list event :=
  [Print stderr InfoNoEnvFile; Print stderr InfoCopyExample].

(** The test of the clean-up loop on a trimmed line: not empty, and none of
    the skipped prefixes in front. *)
Definition qualifies (clean_line : string) : bool :=
  Py.truthy clean_line
  && negb (Py.startswith_any (Py.lower clean_line) skipped_prefixes).

(** The event writes on the error stream. *)
Definition is_stderr (e : event) : bool :=
  match e with Print stderr _ => true | _ => false end.

(** The event is a request to the server. *)
Definition is_post (e : event) : bool :=
  match e with Post _ _ _ => true | _ => false end.

(** The text holds only the blanks of the lexer: space, tab, CR, LF. *)
Fixpoint blank (s : string) : bool :=
  match s with
  | EmptyString => true
  | String c s' => Shlex.char_in c Shlex.whitespace && blank s'
  end.

(** A state of the lexer from which a token or an error is certain: a
    token is begun or a quote was seen, or the lexer is inside a quote or
    behind a backslash. *)
Definition productive (state escapedstate : Shlex.lex_state) (quoted : bool)
    (token : string) : bool :=
  match state, escapedstate with
  | Shlex.st_eof, _ | _, Shlex.st_eof => false
  | Shlex.st_quote _, _ | Shlex.st_escape _, _ => true
  | _, _ => Py.truthy token || quoted
  end.

(** The run of [main] on [world_rm] with [-i -y], before and after the
    command is started. *)
Definition trace_before_rm : list event :=
  [Print stdout (SendingPrompt "gemma3:1b" DEFAULT_OLLAMA_API_URL);
   Post DEFAULT_OLLAMA_API_URL "gemma3:1b" "delete the temporary file";
   Print stdout (Suggested "rm temporary.log");
   Print stdout WarnNoConfirmation;
   Print stdout (Executing "rm temporary.log");
   Print stdout Rule].

Definition trace_after_rm : list event :=
  [Print stderr ErrorsHeader;
   Print stderr (Text "rm: cannot remove 'temporary.log'");
   Print stderr (WarnErrorCode 1)].

Definition docker_rm_unclosed : string :=
  "  docker rm " +:+ String Py.dquote "my container".

(** * Properties *)

(** ** The embedding on concrete inputs *)

Example split_rm :
  Shlex.split "rm -rf /tmp/x" = Some ["rm"; "-rf"; "/tmp/x"].
Proof. reflexivity. Qed.

Example split_quoted_word :
  Shlex.split ("a 'b c' d" +:+ String Py.backslash " e") = Some ["a"; "b c"; "d e"].
Proof. reflexivity. Qed.

Example split_empty_quotes : Shlex.split "''" = Some [EmptyString].
Proof. reflexivity. Qed.

Example split_escaped_quote :
  Shlex.split (String Py.dquote ("a" +:+ String Py.backslash (String Py.dquote
                 ("b" +:+ String Py.backslash ("c" +:+ String Py.dquote EmptyString)))))
  = Some ["a" +:+ String Py.dquote ("b" +:+ String Py.backslash "c")].
Proof. reflexivity. Qed.

Example split_blanks : Shlex.split "  a   b " = Some ["a"; "b"].
Proof. reflexivity. Qed.

Example split_glued_quote : Shlex.split "'a'b" = Some ["ab"].
Proof. reflexivity. Qed.

Example split_hash_is_a_word : Shlex.split "ls # x" = Some ["ls"; "#"; "x"].
Proof. reflexivity. Qed.

Example split_backslash_kept_in_double_quotes :
  Shlex.split (String Py.dquote ("a" +:+ String Py.backslash ("nb" +:+ String Py.dquote EmptyString)))
  = Some ["a" +:+ String Py.backslash "nb"].
Proof. reflexivity. Qed.

Example split_backslash_plain_in_single_quotes :
  Shlex.split ("'a" +:+ String Py.backslash "'") = Some ["a" +:+ String Py.backslash EmptyString].
Proof. reflexivity. Qed.

Example split_trailing_backslash :
  Shlex.split ("ls " +:+ String Py.backslash EmptyString) = None.
Proof. reflexivity. Qed.

Example strip_example : Py.strip "  ls -l  " = "ls -l".
Proof. reflexivity. Qed.

Example slice_example : Py.slice "```bash ls```" 3 (Some (-3)%Z) = "bash ls".
Proof. reflexivity. Qed.

Example split_lines_example :
  Py.split Py.newline ("a" +:+ String Py.newline (String Py.newline "b"))
  = ["a"; EmptyString; "b"].
Proof. reflexivity. Qed.

Example fence_on_three_lines :
  outcome (cleanup (Some ("```bash" +:+ String Py.newline "ls -l"
                          +:+ String Py.newline "```")))
  = Return (Some "ls -l").
Proof. reflexivity. Qed.

Example end_to_end_not_interactive :
  main cfg0 (Arguments "list files in long format" false false None)
       (World (Reply (Some "ls -l")) EOFError Raised) =
  Run [Print stdout (SendingPrompt "gemma3:1b" DEFAULT_OLLAMA_API_URL);
       Post DEFAULT_OLLAMA_API_URL "gemma3:1b" "list files in long format";
       Print stdout (Suggested "ls -l");
       Print stdout NotExecuted]
      (Return tt).
Proof. reflexivity. Qed.

(** ** The monad *)

Lemma outcome_bind {A B : Type} (m : M A) (f : A -> M B) :
  outcome (m ≫= f) =
  match outcome m with
  | Return a => outcome (f a)
  | SysExit code => SysExit code
  end.
Proof. unfold mbind, M_bind. destruct (outcome m); reflexivity. Qed.

Lemma trace_bind {A B : Type} (m : M A) (f : A -> M B) :
  trace (m ≫= f) =
  match outcome m with
  | Return a => trace m ++ trace (f a)
  | SysExit _ => trace m
  end.
Proof. unfold mbind, M_bind. destruct (outcome m); reflexivity. Qed.

Lemma bind_run {A B : Type} (t : list event) (a : A) (f : A -> M B) :
  Run t (Return a) ≫= f = Run (t ++ trace (f a)) (outcome (f a)).
Proof. reflexivity. Qed.

(** ** Strings *)

Lemma truthy_false (s : string) : Py.truthy s = false -> s = EmptyString.
Proof. destruct s; [reflexivity | discriminate]. Qed.

Lemma split_empty : Shlex.split EmptyString = Some [].
Proof. reflexivity. Qed.

(** ** The lexer: the calls of [read_token] and the single pass agree *)

(** A call of [read_token] that returns has read at least one character,
    unless there was none. *)
Lemma read_token_reads (instream : string) :
  forall (state escapedstate : Shlex.lex_state) (quoted : bool) (token : string)
         (result : option string) (state' : Shlex.lex_state) (rest : string),
    Shlex.read_token state escapedstate quoted token instream
    = Some (result, state', rest) ->
    String.length rest <= Nat.pred (String.length instream).
Proof.
  induction instream as [|nextchar instream IH];
    intros state escapedstate quoted token result state' rest Hread.
  - destruct state; cbn in Hread; try discriminate Hread;
      injection Hread as _ _ <-; reflexivity.
  - cbn [String.length Nat.pred].
    assert (Hrec : forall st es q tok,
               Shlex.read_token st es q tok instream = Some (result, state', rest) ->
               String.length rest <= String.length instream).
    { intros st es q tok H. apply IH in H. lia. }
    destruct state; cbn [Shlex.read_token] in Hread;
      repeat match type of Hread with
             | (if ?b then _ else _) = _ => destruct b
             end;
      try (injection Hread as _ _ <-; reflexivity);
      try (by eapply Hrec).
Qed.

(** The single pass is the first call of [read_token] followed by the pass
    over what that call left. *)
Lemma lex_read_token (instream : string) :
  forall (state escapedstate : Shlex.lex_state) (quoted : bool) (token : string),
    Shlex.lex state escapedstate quoted token instream =
    match Shlex.read_token state escapedstate quoted token instream with
    | None => None
    | Some (None, _, _) => Some []
    | Some (Some token', state', rest) =>
        Shlex.emit token' (Shlex.lex state' Shlex.st_space false EmptyString rest)
    end.
Proof.
  induction instream as [|nextchar instream IH]; intros state escapedstate quoted token.
  - destruct state; cbn; try reflexivity;
      destruct (Shlex.result_of _ _); reflexivity.
  - destruct state; cbn [Shlex.lex Shlex.read_token];
      repeat match goal with
             | |- context [if ?b then _ else _] =>
                 lazymatch b with
                 | context [if _ then _ else _] => fail
                 | _ => destruct b eqn:?
                 end
             end;
      try apply IH;
      try (destruct (Shlex.result_of _ _); reflexivity).
Qed.

Lemma tokens_lex (calls : nat) :
  forall (instream : string) (state : Shlex.lex_state),
    String.length instream < calls ->
    Shlex.tokens calls state instream =
    Shlex.lex state Shlex.st_space false EmptyString instream.
Proof.
  induction calls as [|calls IH]; intros instream state Hcalls; [lia |].
  rewrite lex_read_token. cbn [Shlex.tokens].
  destruct (Shlex.read_token state Shlex.st_space false EmptyString instream)
    as [[[[token'|] state'] rest]|] eqn:Hread; try reflexivity.
  rewrite IH; [reflexivity |].
  pose proof (read_token_reads _ _ _ _ _ _ _ _ Hread) as Hrest.
  destruct instream as [|c instream].
  - destruct state; cbn in Hread; discriminate Hread.
  - cbn [String.length Nat.pred] in *. lia.
Qed.

(** [shlex.split] is the single pass from the initial state. *)
Lemma split_lex (s : string) :
  Shlex.split s = Shlex.lex Shlex.st_space Shlex.st_space false EmptyString s.
Proof. unfold Shlex.split. apply tokens_lex. lia. Qed.

(** ** The safety classifier *)

(** [is_destructive] on a command that tokenizes to at least one word. *)
Lemma is_destructive_tokens (command first_command : string) (rest : list string) :
  Shlex.split command = Some (first_command :: rest) ->
  is_destructive command =
  if String.eqb first_command "sudo" && (1 <? S (List.length rest))%nat
  then Run [Print stdout WarnSudo] (Return true)
  else Run [] (Return (existsb (matches first_command command) DESTRUCTIVE_COMMANDS)).
Proof.
  intros Hsplit. unfold is_destructive.
  destruct command as [|c command'].
  - rewrite split_empty in Hsplit. discriminate.
  - cbn [Py.truthy negb]. rewrite Hsplit. cbn [List.length].
    destruct (String.eqb first_command "sudo" && (1 <? S (List.length rest))%nat).
    + reflexivity.
    + destruct (existsb _ _); reflexivity.
Qed.

Lemma is_destructive_returns (command : string) :
  exists b t, is_destructive command = Run t (Return b) /\
              existsb is_run t = false /\ existsb is_input t = false.
Proof.
  unfold is_destructive.
  destruct (negb (Py.truthy command)); [by exists false, [] |].
  destruct (Shlex.split command) as [[|first_command rest]|].
  - by exists false, [].
  - destruct (_ && _); [by eexists true, _ |].
    destruct (existsb _ _); [by exists true, [] | by exists false, []].
  - by eexists true, _.
Qed.

Lemma existsb_matches (actual_command command : string) :
  existsb (matches actual_command command) DESTRUCTIVE_COMMANDS = true <->
  In actual_command DESTRUCTIVE_COMMANDS \/
  exists d, In d DESTRUCTIVE_COMMANDS /\
            Py.startswith (Py.strip command) (d +:+ " ") = true.
Proof.
  rewrite existsb_exists. split.
  - intros (d & Hd & Hm). unfold matches in Hm.
    apply orb_true_iff in Hm as [Heq | Hpre].
    + left. apply String.eqb_eq in Heq. by subst.
    + right. by exists d.
  - intros [Hin | (d & Hd & Hpre)].
    + exists actual_command. split; [done |]. unfold matches.
      by rewrite String.eqb_refl.
    + exists d. split; [done |]. unfold matches.
      by rewrite Hpre, orb_true_r.
Qed.

Lemma sudo_test (first_command : string) (rest : list string) :
  String.eqb first_command "sudo" && (1 <? S (List.length rest))%nat = true <->
  elevated_privilege first_command rest.
Proof.
  unfold elevated_privilege. rewrite andb_true_iff, String.eqb_eq.
  destruct rest as [|tok rest']; cbn; split; intros [H1 H2]; split;
    try done; discriminate.
Qed.

(** A tokenized command that is neither [sudo ...] nor a hit in the table. *)
Lemma is_destructive_neither
    (command first_command : string) (rest : list string) :
  Shlex.split command = Some (first_command :: rest) ->
  ~ elevated_privilege first_command rest ->
  ~ matched_keyword first_command command ->
  is_destructive command = Run [] (Return false).
Proof.
  intros Hsplit He Hk. rewrite (is_destructive_tokens _ _ _ Hsplit).
  destruct (String.eqb first_command "sudo" && (1 <? S (List.length rest))%nat) eqn:Hs.
  - exfalso. apply He. by apply sudo_test.
  - destruct (existsb _ _) eqn:Hm; [| reflexivity].
    exfalso. apply Hk. by apply existsb_matches.
Qed.

(** C3.  A command that tokenizes to at least one word is classified
    destructive exactly when its first token is [sudo] with a further token
    after it (the sudo warning is printed: elevated privilege), or when the
    first token is an entry of the table or the trimmed command starts with
    an entry and a space (nothing is printed: matched keyword); otherwise it
    is classified not destructive, and nothing is printed. *)
Theorem is_destructive_classification
    (command first_command : string) (rest : list string) :
  Shlex.split command = Some (first_command :: rest) ->
  (outcome (is_destructive command) = Return true <->
   elevated_privilege first_command rest \/ matched_keyword first_command command) /\
  (elevated_privilege first_command rest ->
   is_destructive command = Run [Print stdout WarnSudo] (Return true)) /\
  (~ elevated_privilege first_command rest ->
   matched_keyword first_command command ->
   is_destructive command = Run [] (Return true)) /\
  (~ elevated_privilege first_command rest ->
   ~ matched_keyword first_command command ->
   is_destructive command = Run [] (Return false)).
Proof.
  intros Hsplit. rewrite (is_destructive_tokens _ _ _ Hsplit).
  pose proof (sudo_test first_command rest) as Hsudo.
  pose proof (existsb_matches first_command command) as Hkw.
  fold (matched_keyword first_command command) in Hkw.
  destruct (String.eqb first_command "sudo" && (1 <? S (List.length rest))%nat).
  - assert (He : elevated_privilege first_command rest) by by apply Hsudo.
    repeat split; try done. by left.
  - assert (He : ~ elevated_privilege first_command rest).
    { intros He. apply Hsudo in He. discriminate. }
    destruct (existsb _ _).
    + assert (Hk : matched_keyword first_command command) by by apply Hkw.
      repeat split; try done. by right.
    + assert (Hk : ~ matched_keyword first_command command).
      { intros Hk. apply Hkw in Hk. discriminate. }
      repeat split; try done.
      intros [? | ?]; done.
Qed.

(** C4.  A command on which [shlex.split] raises [ValueError] is classified
    destructive, with the parse warning on the error stream; the function
    returns, it does not raise. *)
Theorem unparseable_is_destructive (command : string) :
  Shlex.split command = None ->
  is_destructive command =
  Run [Print stderr (WarnUnparsed command)] (Return true).
Proof.
  intros Hsplit. unfold is_destructive.
  destruct command as [|c command'].
  - rewrite split_empty in Hsplit. discriminate.
  - cbn [Py.truthy negb]. by rewrite Hsplit.
Qed.

Lemma unparseable_is_destructive_witness :
  Shlex.split echo_unterminated = None /\
  is_destructive echo_unterminated =
  Run [Print stderr (WarnUnparsed echo_unterminated)] (Return true).
Proof.
  split; [reflexivity |].
  apply (unparseable_is_destructive echo_unterminated). reflexivity.
Defined.

Lemma no_keyword_ls : ~ matched_keyword "ls" "ls -la".
Proof.
  intros Hk. apply existsb_matches in Hk. vm_compute in Hk. discriminate.
Qed.

Lemma is_destructive_classification_witness :
  Shlex.split "rm -rf /tmp/x" = Some ["rm"; "-rf"; "/tmp/x"] /\
  is_destructive "rm -rf /tmp/x" = Run [] (Return true) /\
  is_destructive "sudo apt upgrade" = Run [Print stdout WarnSudo] (Return true) /\
  is_destructive "ls -la" = Run [] (Return false).
Proof.
  split; [reflexivity |]. split; [| split].
  - apply (is_destructive_classification "rm -rf /tmp/x" "rm" ["-rf"; "/tmp/x"] eq_refl).
    + intros [H _]. discriminate H.
    + left. cbn. tauto.
  - apply (is_destructive_classification "sudo apt upgrade" "sudo" ["apt"; "upgrade"] eq_refl).
    split; [reflexivity | discriminate].
  - apply (is_destructive_classification "ls -la" "ls" ["-la"] eq_refl).
    + intros [H _]. discriminate H.
    + apply no_keyword_ls.
Defined.

(** ** Words in front of the lexer *)

Lemma plain_char_tests (c : ascii) :
  plain_char c = true ->
  Shlex.char_in c Shlex.whitespace = false /\
  Shlex.char_in c Shlex.quotes = false /\
  Shlex.char_in c Shlex.escape = false.
Proof.
  unfold plain_char. rewrite !andb_true_iff, !negb_true_iff. tauto.
Qed.

Lemma append_assoc (a b c : string) : (a +:+ b) +:+ c = a +:+ (b +:+ c).
Proof.
  induction a as [|x a IH]; cbn [String.append]; [reflexivity | by rewrite IH].
Qed.

Lemma append_empty_r (a : string) : a +:+ EmptyString = a.
Proof.
  induction a as [|x a IH]; cbn [String.append]; [reflexivity | by rewrite IH].
Qed.

(** Inside a word, plain characters are appended to the token. *)
Lemma lex_word_chars (word : string) :
  forall (escapedstate : Shlex.lex_state) (quoted : bool) (token tail : string),
    plain_word word = true ->
    Shlex.lex Shlex.st_word escapedstate quoted token (word +:+ tail) =
    Shlex.lex Shlex.st_word escapedstate quoted (token +:+ word) tail.
Proof.
  induction word as [|c word IH]; intros escapedstate quoted token tail Hplain.
  - cbn [String.append]. by rewrite append_empty_r.
  - cbn in Hplain. apply andb_true_iff in Hplain as [Hc Hword].
    destruct (plain_char_tests c Hc) as (Hw & Hq & He).
    cbn [String.append Shlex.lex]. rewrite Hw, Hq, He.
    rewrite IH by done. unfold Shlex.append_char.
    by rewrite append_assoc.
Qed.

(** A plain word followed by a blank is the first token, and the lexer goes
    on with what follows as if it started there. *)
Lemma split_leading_word (lead tail : string) (blank : ascii) :
  lead <> EmptyString ->
  plain_word lead = true ->
  Shlex.char_in blank Shlex.whitespace = true ->
  Shlex.split (lead +:+ String blank tail) = Shlex.emit lead (Shlex.split tail).
Proof.
  intros Hne Hplain Hblank.
  destruct lead as [|c lead']; [done |].
  cbn in Hplain. apply andb_true_iff in Hplain as [Hc Hword].
  destruct (plain_char_tests c Hc) as (Hw & Hq & He).
  rewrite !split_lex. cbn [String.append Shlex.lex]. rewrite Hw, Hq, He.
  rewrite lex_word_chars by done.
  cbn [String.append Shlex.lex Py.truthy orb]. by rewrite Hblank.
Qed.

Lemma keyword_only_later_intro (first_command pre keyword post : string) :
  first_token (pre +:+ keyword +:+ post) = Some first_command ->
  existsb (matches first_command (pre +:+ keyword +:+ post)) DESTRUCTIVE_COMMANDS
  = false ->
  Py.truthy pre = true ->
  existsb (String.eqb keyword) DESTRUCTIVE_COMMANDS = true ->
  keyword_only_later (pre +:+ keyword +:+ post).
Proof.
  intros Hfirst Hno Hpre Hkw.
  exists first_command, pre, keyword, post. repeat split; try done.
  - intros Hk. apply existsb_matches in Hk. congruence.
  - intros ->. discriminate Hpre.
  - apply existsb_exists in Hkw as (d & Hd & Heq).
    apply String.eqb_eq in Heq. by subst.
Qed.

(** When the command tokenizes, its first token heads the list. *)
Lemma split_first_token (command first_command : string) :
  first_token command = Some first_command ->
  Shlex.split command <> None ->
  exists rest, Shlex.split command = Some (first_command :: rest).
Proof.
  unfold first_token, Shlex.split. cbn [Shlex.tokens].
  destruct (Shlex.read_token Shlex.st_space Shlex.st_space false EmptyString command)
    as [[[[token|] state'] rest']|]; try discriminate.
  intros [= ->] Hsplit.
  destruct (Shlex.tokens (String.length command) state' rest') as [toks|]; [| done].
  by exists toks.
Qed.

Lemma read_token_word_chars (word : string) :
  forall (escapedstate : Shlex.lex_state) (quoted : bool) (token tail : string),
    plain_word word = true ->
    Shlex.read_token Shlex.st_word escapedstate quoted token (word +:+ tail) =
    Shlex.read_token Shlex.st_word escapedstate quoted (token +:+ word) tail.
Proof.
  induction word as [|c word IH]; intros escapedstate quoted token tail Hplain.
  - cbn [String.append]. by rewrite append_empty_r.
  - cbn in Hplain. apply andb_true_iff in Hplain as [Hc Hword].
    destruct (plain_char_tests c Hc) as (Hw & Hq & He).
    cbn [String.append Shlex.read_token]. rewrite Hw, Hq, He.
    rewrite IH by done. unfold Shlex.append_char.
    by rewrite append_assoc.
Qed.

(** An unquoted word in front of a blank is the first token. *)
Lemma first_token_leading_word (lead tail : string) (blank : ascii) :
  lead <> EmptyString ->
  plain_word lead = true ->
  Shlex.char_in blank Shlex.whitespace = true ->
  first_token (lead +:+ String blank tail) = Some lead.
Proof.
  intros Hne Hplain Hblank.
  destruct lead as [|c lead']; [done |].
  cbn in Hplain. apply andb_true_iff in Hplain as [Hc Hword].
  destruct (plain_char_tests c Hc) as (Hw & Hq & He).
  unfold first_token. cbn [String.append Shlex.read_token]. rewrite Hw, Hq, He.
  rewrite read_token_word_chars by done.
  cbn [String.append Shlex.read_token Py.truthy orb]. by rewrite Hblank.
Qed.

Lemma startswith_decompose (p : string) :
  forall s, Py.startswith s p = true -> exists post, s = p +:+ post.
Proof.
  induction p as [|b p IH]; intros s H; [by exists s |].
  destruct s as [|a s]; [discriminate H |].
  cbn [Py.startswith] in H. apply andb_true_iff in H as [Hab Hs].
  apply Ascii.eqb_eq in Hab as ->. destruct (IH s Hs) as (post & ->).
  by exists post.
Qed.

Lemma contains_decompose (s p : string) :
  Py.contains s p = true -> exists pre post, s = pre +:+ p +:+ post.
Proof.
  induction s as [|a s IH]; cbn [Py.contains]; intros H.
  - rewrite orb_false_r in H. destruct (startswith_decompose p _ H) as (post & ->).
    by exists EmptyString, post.
  - apply orb_true_iff in H as [H | H].
    + destruct (startswith_decompose p _ H) as (post & ->).
      by exists EmptyString, post.
    + destruct (IH H) as (pre & post & ->). by exists (String a pre), post.
Qed.

(** The commands with an unquoted first word that is no keyword, a blank,
    and a keyword somewhere behind the blank are among those the predicate
    describes. *)
Lemma keyword_only_later_leading_word (lead tail keyword : string) (blank : ascii) :
  lead <> EmptyString ->
  plain_word lead = true ->
  Shlex.char_in blank Shlex.whitespace = true ->
  ~ matched_keyword lead (lead +:+ String blank tail) ->
  In keyword DESTRUCTIVE_COMMANDS ->
  Py.contains tail keyword = true ->
  keyword_only_later (lead +:+ String blank tail).
Proof.
  intros Hne Hplain Hblank Hno Hkw Hsub.
  destruct (contains_decompose tail keyword Hsub) as (pre & post & ->).
  exists lead, (lead +:+ String blank pre), keyword, post.
  split; [by apply first_token_leading_word |]. split; [exact Hno |].
  split; [| split; [| exact Hkw]].
  - rewrite append_assoc. reflexivity.
  - destruct lead; [done | discriminate].
Qed.

(** C10, as amended.  When a destructive keyword comes only after a
    separator, a pipe or another leading command, so that what leads the
    command is no keyword, and the command tokenizes, the command is
    classified not destructive, whatever comes behind its first token. *)
Theorem later_keyword_not_destructive (command : string) :
  keyword_only_later command ->
  Shlex.split command <> None ->
  is_destructive command = Run [] (Return false).
Proof.
  intros (first_command & pre & keyword & post & Hfirst & Hno & _) Hsplit.
  destruct (split_first_token command first_command Hfirst Hsplit) as (rest & Htokens).
  apply (is_destructive_neither _ _ _ Htokens); [| done].
  intros [-> _]. apply Hno. left. cbn. tauto.
Qed.

Lemma later_keyword_not_destructive_witness :
  keyword_only_later "ls; rm -rf /" /\
  keyword_only_later "true && rm -rf /" /\
  keyword_only_later "ls;rm -rf /" /\
  keyword_only_later "ls|rm x" /\
  is_destructive "ls; rm -rf /" = Run [] (Return false) /\
  is_destructive "true && rm -rf /" = Run [] (Return false) /\
  is_destructive "ls;rm -rf /" = Run [] (Return false) /\
  is_destructive "ls|rm x" = Run [] (Return false).
Proof.
  assert (H1 : keyword_only_later "ls; rm -rf /")
    by (apply (keyword_only_later_intro "ls;" "ls; " "rm" " -rf /"); reflexivity).
  assert (H2 : keyword_only_later "true && rm -rf /")
    by (apply (keyword_only_later_intro "true" "true && " "rm" " -rf /"); reflexivity).
  assert (H3 : keyword_only_later "ls;rm -rf /")
    by (apply (keyword_only_later_intro "ls;rm" "ls;" "rm" " -rf /"); reflexivity).
  assert (H4 : keyword_only_later "ls|rm x")
    by (apply (keyword_only_later_intro "ls|rm" "ls|" "rm" " x"); reflexivity).
  split; [exact H1 |]. split; [exact H2 |]. split; [exact H3 |]. split; [exact H4 |].
  split; [| split; [| split]].
  - apply (later_keyword_not_destructive "ls; rm -rf /" H1). discriminate.
  - apply (later_keyword_not_destructive "true && rm -rf /" H2). discriminate.
  - apply (later_keyword_not_destructive "ls;rm -rf /" H3). discriminate.
  - apply (later_keyword_not_destructive "ls|rm x" H4). discriminate.
Defined.

(** C10, as stated, fails: a quote left open behind the separator makes the
    lexer give up, and the command is classified destructive. *)
Lemma later_keyword_counterexample :
  ~ (forall command : string,
        keyword_only_later command ->
        outcome (is_destructive command) = Return false).
Proof.
  intros H.
  specialize (H "ls; rm -rf /tmp/x # don't").
  assert (Hlater : keyword_only_later "ls; rm -rf /tmp/x # don't")
    by (apply (keyword_only_later_intro "ls;" "ls; " "rm" " -rf /tmp/x # don't");
        reflexivity).
  specialize (H Hlater). vm_compute in H. discriminate H.
Qed.

(** ** The inference stage *)

Lemma cleanup_run (response : option string) :
  cleanup response =
  let candidate := potential_command (response_lines response) in
  if negb (Py.truthy candidate) || Py.contains candidate "ERROR:"
  then Run [Print stderr ErrNoValidCommand;
            Print stderr (RawModelResponse (Py.strip (default EmptyString response)))]
           (Return None)
  else Run [] (Return (Some candidate)).
Proof.
  unfold cleanup, response_lines. cbn zeta.
  destruct (negb _ || _); reflexivity.
Qed.

(** [query_ollama] always returns; it prints and posts, and does nothing
    else; the command it returns is never the empty string. *)
Lemma query_ollama_shape (cfg : config) (model prompt_text : string) (r : http_reply) :
  exists (t : list event) (o : option string),
    query_ollama cfg model prompt_text r = Run t (Return o) /\
    existsb is_run t = false /\ existsb is_input t = false /\
    holds_command o = bool_decide (is_Some o).
Proof.
  unfold query_ollama.
  destruct r as [| |[d|]|[] text|response];
    try (eexists _, None; cbn; repeat split; reflexivity).
  rewrite cleanup_run. cbn zeta.
  destruct (negb (Py.truthy _)) eqn:Hempty; cbn [orb].
  - eexists _, None. cbn. repeat split; reflexivity.
  - destruct (Py.contains _ _).
    + eexists _, None. cbn. repeat split; reflexivity.
    + eexists _, (Some _). cbn. repeat split; try reflexivity.
      apply negb_false_iff in Hempty. by rewrite Hempty.
Qed.

Lemma inference_failure_absent (cfg : config) (model prompt_text : string) (r : http_reply) :
  inference_failure r <->
  outcome (query_ollama cfg model prompt_text r) = Return None.
Proof.
  split.
  - intros [| | d | [] text | response Hempty | response Hsentinel];
      try destruct d; try reflexivity.
    + unfold query_ollama. rewrite !outcome_bind. cbn [outcome print emit].
      rewrite cleanup_run. cbn zeta. by rewrite Hempty.
    + unfold query_ollama. rewrite !outcome_bind. cbn [outcome print emit].
      rewrite cleanup_run. cbn zeta. by rewrite Hsentinel, orb_true_r.
  - destruct r as [| |d|b text|response]; try (intros _; constructor; fail).
    unfold query_ollama. rewrite !outcome_bind. cbn [outcome print emit].
    rewrite cleanup_run. cbn zeta.
    destruct (Py.truthy _) eqn:Hempty; cbn [negb orb].
    + destruct (Py.contains _ _) eqn:Hsentinel; [| discriminate].
      intros _. by apply sentinel_response.
    + intros _. apply empty_response. by apply truthy_false.
Qed.

(** ** The confirmation gate and [main] *)

Lemma lower_char_y (c : ascii) :
  Py.lower_char c = "y"%char <-> c = "y"%char \/ c = "Y"%char.
Proof.
  destruct c as [[] [] [] [] [] [] [] []]; vm_compute;
    (split; [intros H; try discriminate H; auto | intros [H | H]; try discriminate H; auto]).
Qed.

Lemma lower_empty (s : string) : Py.lower s = EmptyString <-> s = EmptyString.
Proof. destruct s; cbn; split; intros H; try done. Qed.

(** [confirm.lower() == 'y'] holds for "y" and "Y" and for nothing else. *)
Lemma lower_y (confirm : string) :
  String.eqb (Py.lower confirm) "y" = true <-> confirm = "y" \/ confirm = "Y".
Proof.
  rewrite String.eqb_eq. destruct confirm as [|c s]; cbn [Py.lower].
  - split; [discriminate | intros [H | H]; discriminate H].
  - split.
    + intros H. injection H as Hc Hs.
      apply lower_char_y in Hc. apply (proj1 (lower_empty s)) in Hs. subst s.
      destruct Hc as [-> | ->]; auto.
    + intros [H | H]; injection H as -> ->; reflexivity.
Qed.

Lemma ask_run (question : message) (answer : input_result) :
  ask question answer =
  match answer with
  | Line confirm =>
      if String.eqb (Py.lower confirm) "y"
      then Run [Input question] (Return true)
      else Run [Input question; Print stdout CancelledByUser] (Return false)
  | _ => Run [Input question; Print stdout Cancelled] (SysExit 0)
  end.
Proof.
  unfold ask. destruct answer as [confirm| |]; try reflexivity.
  destruct (String.eqb _ _); reflexivity.
Qed.

Lemma ask_true (question : message) (answer : input_result) :
  outcome (ask question answer) = Return true <-> accepted answer.
Proof.
  rewrite ask_run. unfold accepted. destruct answer as [confirm| |].
  - pose proof (lower_y confirm) as Hy.
    destruct (String.eqb _ _); cbn; split.
    + intros _. exists confirm. split; [done | by apply Hy].
    + done.
    + discriminate.
    + intros (s & [= <-] & Hs). apply Hy in Hs. discriminate.
  - split; [discriminate | intros (? & ? & _); discriminate].
  - split; [discriminate | intros (? & ? & _); discriminate].
Qed.

(** The gate, once the classifier has answered. *)
Lemma confirmation_run (args : arguments) (command : string) (answer : input_result)
    (t : list event) (destructive : bool) :
  is_destructive command = Run t (Return destructive) ->
  confirmation args command answer =
  if interactive args then
    if yes args then
      if destructive
      then Run (t ++ [Print stdout WarnNoConfirmation]) (Return true)
      else Run (t ++ []) (Return true)
    else
      Run (t ++ trace (ask (if destructive then AskDestructive else AskPlain) answer))
          (outcome (ask (if destructive then AskDestructive else AskPlain) answer))
  else Run [Print stdout NotExecuted] (Return false).
Proof.
  intros Hd. unfold confirmation. rewrite Hd.
  destruct (interactive args); [| reflexivity].
  rewrite bind_run.
  destruct destructive, (yes args); reflexivity.
Qed.

Lemma prompted_ask (question : message) (answer : input_result) :
  existsb is_input (trace (ask question answer)) = true.
Proof.
  rewrite ask_run. destruct answer as [confirm| |]; try reflexivity.
  destruct (String.eqb _ _); reflexivity.
Qed.

(** C2.  The gate confirms exactly when interactive mode was requested and
    either auto-confirm was requested or the user typed [y] or [Y]; a
    prompt is shown exactly when interactive mode is on and auto-confirm is
    off.  Without interactive mode the decision is to cancel, with the note
    that [-i] is needed and no prompt, whatever the command.  With
    interactive mode, auto-confirm and a destructive verdict the gate
    confirms with the warning and no prompt.  At a prompt, any other line
    cancels, and an interrupt or the end of input ends the process with
    status 0. *)
Theorem confirmation_gate (args : arguments) (command : string) (answer : input_result) :
  (outcome (confirmation args command answer) = Return true <->
   interactive args = true /\ (yes args = true \/ accepted answer)) /\
  (prompted (confirmation args command answer) = true <->
   interactive args = true /\ yes args = false) /\
  (interactive args = false ->
   confirmation args command answer = Run [Print stdout NotExecuted] (Return false)) /\
  (interactive args = true -> yes args = true -> verdict command = true ->
   outcome (confirmation args command answer) = Return true /\
   prompted (confirmation args command answer) = false /\
   In (Print stdout WarnNoConfirmation) (trace (confirmation args command answer))) /\
  (interactive args = true -> yes args = false ->
   (forall confirm, answer = Line confirm -> ~ accepted answer ->
      outcome (confirmation args command answer) = Return false) /\
   (interrupted answer ->
      outcome (confirmation args command answer) = SysExit 0)).
Proof.
  destruct (is_destructive_returns command) as (d & t & Hd & Hrun & Hinput).
  unfold verdict, prompted. rewrite Hd.
  rewrite (confirmation_run args command answer t d Hd).
  destruct (interactive args), (yes args); cycle 2.
  - (* -y alone *)
    repeat split; try done; intros (H & _); discriminate H.
  - repeat split; try done; intros (H & _); discriminate H.
  - (* -i -y *)
    assert (Hquiet : forall l, existsb is_input l = false ->
                               existsb is_input (t ++ l) = false).
    { intros l Hl. by rewrite existsb_app, Hinput, Hl. }
    destruct d; cbn [outcome trace]; rewrite Hquiet by reflexivity.
    + repeat split; try done; try tauto; try (intros (_ & H); discriminate H).
      apply in_or_app. right. by left.
    + repeat split; try done; try tauto; try (intros (_ & H); discriminate H).
  - (* -i *)
    cbn [outcome trace]. rewrite existsb_app, Hinput, prompted_ask. cbn [orb].
    pose proof (ask_true (if d then AskDestructive else AskPlain) answer) as Hask.
    split; [| split; [| split; [| split]]]; try done.
    + split.
      * intros H. split; [done |]. right. by apply Hask.
      * intros (_ & [H | H]); [discriminate | by apply Hask].
    + intros _ _. split.
      * intros confirm -> Hno. rewrite ask_run.
        destruct (String.eqb _ _) eqn:Hy; [| reflexivity].
        exfalso. apply Hno. exists confirm. split; [done | by apply lower_y].
      * intros [-> | ->]; by rewrite ask_run.
Qed.

Lemma execute_command_run (command : string) (r : run_result) :
  exists t, execute_command command r =
            Run (Print stdout (Executing command) :: Print stdout Rule
                 :: SubprocessRun command :: t) (Return tt) /\
            existsb is_input t = false /\
            match r with
            | Completed _ _ returncode =>
                returncode <> 0%Z ->
                exists t', t = t' ++ [Print stderr (WarnErrorCode returncode)]
            | Raised => t = [Print stderr ErrExecute]
            end.
Proof.
  unfold execute_command. destruct r as [out err returncode|].
  - destruct (Py.truthy out), (Py.truthy err), (returncode =? 0)%Z eqn:Hcode;
      cbn; eexists; (split; [reflexivity |]); (split; [reflexivity |]);
      intros Hne; try (apply Z.eqb_eq in Hcode; contradiction).
    + by exists [Print stdout OutputHeader; Print stdout (Text out);
                 Print stderr ErrorsHeader; Print stderr (Text err)].
    + by exists [Print stdout OutputHeader; Print stdout (Text out)].
    + by exists [Print stderr ErrorsHeader; Print stderr (Text err)].
    + by exists [].
  - eexists. repeat split; reflexivity.
Qed.

(** The gate never starts the command itself, and when it ends the process
    the status is 0. *)
Lemma confirmation_quiet (args : arguments) (command : string) (answer : input_result) :
  executed (confirmation args command answer) = false /\
  forall code, outcome (confirmation args command answer) = SysExit code -> code = 0%Z.
Proof.
  destruct (is_destructive_returns command) as (d & t & Hd & Hrun & Hinput).
  rewrite (confirmation_run args command answer t d Hd). unfold executed.
  destruct (interactive args); [| split; [reflexivity | discriminate]].
  destruct (yes args).
  - destruct d; cbn [trace outcome]; rewrite existsb_app, Hrun;
      (split; [reflexivity | discriminate]).
  - cbn [trace outcome]. rewrite existsb_app, Hrun, ask_run.
    destruct answer as [confirm| |]; [destruct (String.eqb _ _) |..]; cbn;
      (split; [reflexivity |]); intros code H; by inversion H.
Qed.

(** [main] once the inference stage has produced [command]. *)
Lemma main_candidate (cfg : config) (args : arguments) (w : world)
    (tq : list event) (command : string) :
  query_ollama cfg (default (OLLAMA_DEFAULT_MODEL cfg) (model args))
               (prompt args) (reply w) = Run tq (Return (Some command)) ->
  Py.truthy command = true ->
  main cfg args w =
  let gate := confirmation args command (typed w) in
  match outcome gate with
  | Return true =>
      Run (tq ++ Print stdout (Suggested command)
              :: trace gate ++ trace (execute_command command (spawned w)))
          (Return tt)
  | Return false =>
      Run (tq ++ Print stdout (Suggested command) :: trace gate ++ []) (Return tt)
  | SysExit code =>
      Run (tq ++ Print stdout (Suggested command) :: trace gate) (SysExit code)
  end.
Proof.
  intros Hq Hc. unfold main. cbn zeta. rewrite Hq, bind_run.
  change (default EmptyString (Some command)) with command.
  cbn [holds_command]. rewrite Hc. cbn [negb].
  destruct (execute_command_run command (spawned w)) as (te & He & _ & _).
  rewrite !trace_bind, !outcome_bind. cbn [print emit trace outcome app].
  destruct (outcome (confirmation args command (typed w))) as [[]|code];
    try reflexivity.
  by rewrite He.
Qed.

Lemma main_absent (cfg : config) (args : arguments) (w : world) (tq : list event) :
  query_ollama cfg (default (OLLAMA_DEFAULT_MODEL cfg) (model args))
               (prompt args) (reply w) = Run tq (Return None) ->
  main cfg args w = Run (tq ++ []) (SysExit 1).
Proof. intros Hq. unfold main. cbn zeta. by rewrite Hq, bind_run. Qed.

(** C1.  When the inference stage fails (no connection, a timeout, an HTTP
    error, a body that is not JSON, an empty response, the error sentinel),
    [query_ollama] returns [None], the process exits with status 1, and
    [subprocess.run] is never reached. *)
Theorem inference_failure_never_executes (cfg : config) (args : arguments) (w : world) :
  inference_failure (reply w) ->
  outcome (query_ollama cfg (default (OLLAMA_DEFAULT_MODEL cfg) (model args))
                        (prompt args) (reply w)) = Return None /\
  exit_status (main cfg args w) = 1%Z /\
  executed (main cfg args w) = false.
Proof.
  intros Hfail.
  apply (inference_failure_absent cfg (default (OLLAMA_DEFAULT_MODEL cfg) (model args))
           (prompt args)) in Hfail.
  split; [done |].
  destruct (query_ollama_shape cfg (default (OLLAMA_DEFAULT_MODEL cfg) (model args))
              (prompt args) (reply w)) as (tq & o & Hq & Hrun & _ & _).
  rewrite Hq in Hfail. cbn in Hfail. injection Hfail as ->.
  rewrite (main_absent cfg args w tq Hq).
  unfold exit_status, executed. cbn [outcome trace].
  by rewrite existsb_app, Hrun.
Qed.

Lemma inference_failure_never_executes_witness :
  inference_failure (reply world0) /\
  exit_status (main cfg0 args_iy world0) = 1%Z /\
  executed (main cfg0 args_iy world0) = false.
Proof.
  split; [constructor |].
  apply (inference_failure_never_executes cfg0 args_iy world0). constructor.
Defined.

Lemma confirmation_interrupted (args : arguments) (command : string)
    (answer : input_result) :
  prompted (confirmation args command answer) = true ->
  interrupted answer ->
  exists (t : list event) (question : message),
    confirmation args command answer =
    Run (t ++ [Input question; Print stdout Cancelled]) (SysExit 0).
Proof.
  destruct (is_destructive_returns command) as (d & t & Hd & Hrun & Hinput).
  rewrite (confirmation_run args command answer t d Hd). unfold prompted.
  destruct (interactive args); [| discriminate].
  destruct (yes args).
  - destruct d; cbn [trace]; rewrite existsb_app, Hinput; discriminate.
  - intros _ Hint. exists t, (if d then AskDestructive else AskPlain).
    rewrite ask_run. by destruct Hint as [-> | ->].
Qed.

(** C9.  Once a candidate command was produced the process exits with
    status 0: when the gate cancels, when an interrupt or the end of input
    stops a prompt (the cancellation message is then the last thing
    printed, and nothing is run), and when the command was run, also when
    it failed (the warning with its return code is then the last thing
    printed) or could not be started. *)
Theorem candidate_exits_0 (cfg : config) (args : arguments) (w : world)
    (command : string) :
  outcome (query_ollama cfg (default (OLLAMA_DEFAULT_MODEL cfg) (model args))
                        (prompt args) (reply w)) = Return (Some command) ->
  exit_status (main cfg args w) = 0%Z /\
  (executed (main cfg args w) = true <->
   outcome (confirmation args command (typed w)) = Return true) /\
  (prompted (main cfg args w) = true -> interrupted (typed w) ->
   outcome (main cfg args w) = SysExit 0 /\
   executed (main cfg args w) = false /\
   exists (t : list event) (question : message),
     trace (main cfg args w) = t ++ [Input question; Print stdout Cancelled]) /\
  (executed (main cfg args w) = true ->
   outcome (main cfg args w) = Return tt /\
   match spawned w with
   | Completed _ _ returncode =>
       returncode <> 0%Z ->
       exists t, trace (main cfg args w) = t ++ [Print stderr (WarnErrorCode returncode)]
   | Raised =>
       exists t, trace (main cfg args w) = t ++ [Print stderr ErrExecute]
   end).
Proof.
  intros Hsome.
  destruct (query_ollama_shape cfg (default (OLLAMA_DEFAULT_MODEL cfg) (model args))
              (prompt args) (reply w)) as (tq & o & Hq & Hrun & Hinput & Hholds).
  rewrite Hq in Hsome. cbn in Hsome. injection Hsome as ->. cbn in Hholds.
  rewrite (main_candidate cfg args w tq command Hq Hholds). cbn zeta.
  destruct (confirmation_quiet args command (typed w)) as (Hquiet & Hcode).
  pose proof (confirmation_interrupted args command (typed w)) as Hint.
  destruct (execute_command_run command (spawned w)) as (te & He & Hte & Hlast).
  unfold executed, prompted, exit_status in *.
  destruct (outcome (confirmation args command (typed w))) as [[]|code] eqn:Hgate;
    cbn [outcome trace].
  - (* confirmed *)
    rewrite !existsb_app. cbn [existsb is_run is_input]. rewrite !existsb_app.
    rewrite Hrun, Hinput, Hquiet, He. cbn [trace existsb is_run is_input orb].
    split; [reflexivity |]. split; [done |]. split.
    + intros Hp Hi. rewrite Hte, orb_false_r in Hp.
      destruct (Hint Hp Hi) as (t & question & Heq).
      rewrite Heq in Hgate. discriminate Hgate.
    + intros _. split; [reflexivity |].
      destruct (spawned w) as [out err returncode|].
      * intros Hne. destruct (Hlast Hne) as (t' & ->).
        exists (tq ++ Print stdout (Suggested command)
                   :: trace (confirmation args command (typed w))
                   ++ Print stdout (Executing command) :: Print stdout Rule
                   :: SubprocessRun command :: t').
        rewrite <- !app_assoc. cbn [app]. rewrite <- !app_assoc. reflexivity.
      * subst te.
        exists (tq ++ Print stdout (Suggested command)
                   :: trace (confirmation args command (typed w))
                   ++ [Print stdout (Executing command); Print stdout Rule;
                       SubprocessRun command]).
        rewrite <- !app_assoc. cbn [app]. rewrite <- !app_assoc. reflexivity.
  - (* declined *)
    rewrite !existsb_app. cbn [existsb is_run is_input]. rewrite !existsb_app.
    rewrite Hrun, Hinput, Hquiet. cbn [existsb orb].
    split; [reflexivity |]. split; [done |]. split; [| discriminate].
    intros Hp Hi. rewrite orb_false_r in Hp.
    destruct (Hint Hp Hi) as (t & question & Heq).
    rewrite Heq in Hgate. discriminate Hgate.
  - (* stopped at the prompt *)
    rewrite (Hcode code eq_refl).
    rewrite !existsb_app. cbn [existsb is_run is_input]. rewrite Hrun, Hinput, Hquiet.
    cbn [orb].
    split; [reflexivity |]. split; [done |]. split; [| discriminate].
    intros Hp Hi. split; [reflexivity |]. split; [reflexivity |].
    destruct (Hint Hp Hi) as (t & question & Heq).
    exists (tq ++ Print stdout (Suggested command) :: t), question.
    rewrite Heq. cbn [trace]. by rewrite <- app_assoc.
Qed.

Lemma candidate_exits_0_witness :
  outcome (query_ollama cfg0 "gemma3:1b" "delete the temporary file"
             (reply world_rm)) = Return (Some "rm temporary.log") /\
  exit_status (main cfg0 args_iy world_rm) = 0%Z /\
  executed (main cfg0 args_iy world_rm) = true.
Proof.
  split; [reflexivity |].
  destruct (candidate_exits_0 cfg0 args_iy world_rm "rm temporary.log" eq_refl)
    as (Hstatus & Hexecuted & _).
  split; [exact Hstatus | reflexivity].
Defined.

(** ** Response normalization *)

Lemma rstrip_cons (c : ascii) (s : string) :
  Py.rstrip (String c s) =
  match Py.rstrip s with
  | EmptyString => if Py.isspace c then EmptyString else String c EmptyString
  | r => String c r
  end.
Proof. reflexivity. Qed.

Lemma rstrip_idempotent (s : string) : Py.rstrip (Py.rstrip s) = Py.rstrip s.
Proof.
  induction s as [|c s IH]; [reflexivity |].
  rewrite rstrip_cons. destruct (Py.rstrip s) as [|d r] eqn:Hr.
  - destruct (Py.isspace c) eqn:Hc; [reflexivity |].
    rewrite rstrip_cons. cbn [Py.rstrip]. by rewrite Hc.
  - rewrite rstrip_cons. by rewrite IH.
Qed.

Lemma rstrip_head (c : ascii) (s : string) :
  Py.isspace c = false -> exists r, Py.rstrip (String c s) = String c r.
Proof.
  intros Hc. rewrite rstrip_cons. destruct (Py.rstrip s) as [|d r].
  - rewrite Hc. by eexists.
  - by eexists.
Qed.

Lemma lstrip_head (s : string) :
  Py.lstrip s = EmptyString \/
  exists c s', Py.lstrip s = String c s' /\ Py.isspace c = false.
Proof.
  induction s as [|c s IH]; [by left |].
  cbn [Py.lstrip]. destruct (Py.isspace c) eqn:Hc; [exact IH |].
  right. by exists c, s.
Qed.

(** What [strip] returns is already stripped. *)
Lemma strip_idempotent (s : string) : Py.strip (Py.strip s) = Py.strip s.
Proof.
  unfold Py.strip. destruct (lstrip_head s) as [-> | (c & s' & -> & Hc)].
  - reflexivity.
  - destruct (rstrip_head c s' Hc) as (r & Hr). rewrite Hr.
    cbn [Py.lstrip]. rewrite Hc, <- Hr. apply rstrip_idempotent.
Qed.

(** A text without a line feed is one line. *)
Lemma split_one_line (s : string) :
  Py.contains s (String Py.newline EmptyString) = false ->
  Py.split Py.newline s = [s].
Proof.
  induction s as [|c s IH]; [reflexivity |].
  cbn [Py.contains Py.startswith Py.split]. rewrite andb_true_r.
  intros H. apply orb_false_iff in H as [Hc Hs].
  rewrite Hc, (IH Hs). reflexivity.
Qed.

Lemma lower_char_backtick (c : ascii) :
  Ascii.eqb (Py.lower_char c) Py.backtick = Ascii.eqb c Py.backtick.
Proof. destruct c as [[] [] [] [] [] [] [] []]; reflexivity. Qed.

Lemma lower_startswith_backtick (s : string) :
  Py.startswith (Py.lower s) "`" = Py.startswith s "`".
Proof.
  destruct s as [|c s]; [reflexivity |].
  cbn [Py.lower Py.startswith]. by rewrite lower_char_backtick.
Qed.

(** A line that begins with a backtick is one of the skipped lines. *)
Lemma backtick_is_skipped (s : string) :
  Py.startswith s "`" = true ->
  Py.startswith_any (Py.lower s) skipped_prefixes = true.
Proof.
  intros H. unfold Py.startswith_any, skipped_prefixes. cbn [existsb].
  rewrite lower_startswith_backtick, H. by rewrite !orb_true_r.
Qed.

Lemma not_skipped_no_backtick (s : string) :
  Py.startswith_any (Py.lower s) skipped_prefixes = false ->
  Py.startswith s "`" = false.
Proof.
  intros H. destruct (Py.startswith s "`") eqn:Hs; [| reflexivity].
  by rewrite (backtick_is_skipped s Hs) in H.
Qed.

(** Without a backtick in front no fence is stripped. *)
Lemma unfence_plain (s : string) : Py.startswith s "`" = false -> unfence s = s.
Proof.
  intros H. unfold unfence. rewrite H.
  destruct s as [|c s]; [reflexivity |].
  cbn [Py.startswith] in *. rewrite andb_true_r in H. by rewrite H.
Qed.

(** The loop never reaches the fence-stripping code with a fenced line: it
    passes over every line that begins with a backtick. *)
Lemma fenced_line_skipped (line : string) (lines : list string) :
  Py.startswith (Py.strip line) "`" = true ->
  potential_command (line :: lines) = potential_command lines.
Proof.
  intros H. cbn [potential_command].
  by rewrite (backtick_is_skipped _ H), andb_false_r.
Qed.

Lemma rstrip_end (s : string) (d : ascii) :
  Py.isspace d = false ->
  Py.rstrip (s +:+ String d EmptyString) = s +:+ String d EmptyString.
Proof.
  intros Hd. induction s as [|c s IH].
  - cbn. by rewrite Hd.
  - cbn [String.append]. rewrite rstrip_cons, IH.
    destruct s; reflexivity.
Qed.

(** A text between two characters that are no blanks is already stripped. *)
Lemma strip_delimited (c d : ascii) (s : string) :
  Py.isspace c = false -> Py.isspace d = false ->
  Py.strip (String c (s +:+ String d EmptyString)) = String c (s +:+ String d EmptyString).
Proof.
  intros Hc Hd. unfold Py.strip. cbn [Py.lstrip]. rewrite Hc.
  apply (rstrip_end (String c s) d Hd).
Qed.

Lemma contains_char_append (a b : string) (c : ascii) :
  Py.contains (a +:+ b) (String c EmptyString) =
  Py.contains a (String c EmptyString) || Py.contains b (String c EmptyString).
Proof.
  induction a as [|x a IH]; [reflexivity |].
  cbn [String.append Py.contains Py.startswith]. by rewrite IH, orb_assoc.
Qed.

(** The text [```bash command```] is its own trimmed form, begins with a
    backtick, and has a line feed only if [command] has one. *)
Lemma fenced_strip (command : string) :
  Py.startswith (Py.strip ("```bash " +:+ command +:+ "```")) "`" = true /\
  (Py.contains command (String Py.newline EmptyString) = false ->
   Py.contains (Py.strip ("```bash " +:+ command +:+ "```"))
               (String Py.newline EmptyString) = false).
Proof.
  assert (Hstrip : Py.strip ("```bash " +:+ command +:+ "```")
                   = "```bash " +:+ command +:+ "```").
  { change ("```bash " +:+ command +:+ "```")
      with (String Py.backtick ("``bash " +:+ command +:+ ("``" +:+ "`"))).
    rewrite <- (append_assoc command), <- (append_assoc "``bash ").
    by apply strip_delimited. }
  rewrite Hstrip. split; [reflexivity |].
  intros Hline. rewrite !contains_char_append, Hline. reflexivity.
Qed.

(** A response of one line that begins with a backtick yields no
    candidate. *)
Lemma fenced_single_line_absent
    (cfg : config) (model prompt_text response : string) :
  Py.startswith (Py.strip response) "`" = true ->
  Py.contains (Py.strip response) (String Py.newline EmptyString) = false ->
  outcome (query_ollama cfg model prompt_text (Reply (Some response))) = Return None.
Proof.
  intros Hfence Hline.
  apply inference_failure_absent, empty_response.
  unfold response_lines. change (default EmptyString (Some response)) with response.
  rewrite (split_one_line _ Hline). apply fenced_line_skipped.
  by rewrite strip_idempotent.
Qed.

(** C5.  A response of one line wrapped in a fence makes [query_ollama]
    return [None], whatever the fence holds: the loop passes over the line
    because it begins with a backtick.  For [```bash ls -l```] the
    fence-stripping code of the loop, were it reached, would give [ls -l];
    as it is the candidate stays empty and the error is printed. *)
Theorem fenced_bash_line_rejected :
  (forall (cfg : config) (model prompt_text command : string),
      Py.contains command (String Py.newline EmptyString) = false ->
      outcome (query_ollama cfg model prompt_text
                 (Reply (Some ("```bash " +:+ command +:+ "```")))) = Return None) /\
  unfence "```bash ls -l```" = "ls -l" /\
  potential_command (response_lines (Some "```bash ls -l```")) = EmptyString /\
  query_ollama cfg0 "gemma3:1b" "list the files in long format"
               (Reply (Some "```bash ls -l```")) =
  Run [Print stdout (SendingPrompt "gemma3:1b" DEFAULT_OLLAMA_API_URL);
       Post DEFAULT_OLLAMA_API_URL "gemma3:1b" "list the files in long format";
       Print stderr ErrNoValidCommand;
       Print stderr (RawModelResponse "```bash ls -l```")]
      (Return None).
Proof.
  split; [| repeat split; reflexivity].
  intros cfg model prompt_text command Hline.
  pose proof (fenced_strip command) as (Hhead & Hlines).
  apply fenced_single_line_absent; [exact Hhead | by apply Hlines].
Qed.

(** C6, as stated, fails: the sentinel on a later line is not looked at. *)
Lemma sentinel_counterexample :
  ~ (forall (cfg : config) (model prompt_text response : string),
        Py.contains response "ERROR:" = true ->
        outcome (query_ollama cfg model prompt_text (Reply (Some response)))
        = Return None).
Proof.
  intros H.
  specialize (H cfg0 "gemma3:1b" "list files"
                ("ls -l" +:+ String Py.newline "ERROR: Could not generate command.")
                eq_refl).
  vm_compute in H. discriminate H.
Qed.

(** C6, as amended.  When the candidate, the first line the loop takes,
    contains [ERROR:], [query_ollama] returns [None] and prints the trimmed
    response text on the error stream. *)
Theorem sentinel_in_candidate_absent
    (cfg : config) (model prompt_text : string) (response : option string) :
  Py.contains (potential_command (response_lines response)) "ERROR:" = true ->
  query_ollama cfg model prompt_text (Reply response) =
  Run [Print stdout (SendingPrompt model (OLLAMA_API_URL cfg));
       Post (OLLAMA_API_URL cfg) model prompt_text;
       Print stderr ErrNoValidCommand;
       Print stderr (RawModelResponse (Py.strip (default EmptyString response)))]
      (Return None).
Proof.
  intros Hsentinel. unfold query_ollama. rewrite cleanup_run. cbn zeta.
  by rewrite Hsentinel, orb_true_r.
Qed.

Lemma sentinel_in_candidate_absent_witness :
  Py.contains
    (potential_command (response_lines (Some "ERROR: Could not generate command.")))
    "ERROR:" = true /\
  outcome (query_ollama cfg0 "gemma3:1b" "What's the weather like?"
             (Reply (Some "ERROR: Could not generate command."))) = Return None.
Proof.
  split; [reflexivity |].
  by rewrite (sentinel_in_candidate_absent cfg0 "gemma3:1b" "What's the weather like?"
                (Some "ERROR: Could not generate command.") eq_refl).
Defined.

(** C7.  A response that is one bare command: after trimming it is not
    empty, has no line feed, starts with none of the skipped prefixes and
    does not contain [ERROR:].  [query_ollama] returns it, trimmed. *)
Theorem bare_command_returned
    (cfg : config) (model prompt_text response : string) :
  Py.truthy (Py.strip response) = true ->
  Py.contains (Py.strip response) (String Py.newline EmptyString) = false ->
  Py.startswith_any (Py.lower (Py.strip response)) skipped_prefixes = false ->
  Py.contains (Py.strip response) "ERROR:" = false ->
  query_ollama cfg model prompt_text (Reply (Some response)) =
  Run [Print stdout (SendingPrompt model (OLLAMA_API_URL cfg));
       Post (OLLAMA_API_URL cfg) model prompt_text]
      (Return (Some (Py.strip response))).
Proof.
  intros Hne Hline Hskip Herr.
  assert (Hcand : potential_command (response_lines (Some response)) = Py.strip response).
  { unfold response_lines. change (default EmptyString (Some response)) with response.
    rewrite (split_one_line _ Hline). cbn [potential_command].
    rewrite strip_idempotent, Hne, Hskip. cbn [negb andb].
    apply unfence_plain. by apply not_skipped_no_backtick. }
  unfold query_ollama. rewrite cleanup_run. cbn zeta.
  by rewrite Hcand, Hne, Herr.
Qed.

Lemma bare_command_returned_witness :
  Py.truthy (Py.strip "  ls -l ") = true /\
  query_ollama cfg0 "gemma3:1b" "list the files in long format" (Reply (Some "  ls -l ")) =
  Run [Print stdout (SendingPrompt "gemma3:1b" DEFAULT_OLLAMA_API_URL);
       Post DEFAULT_OLLAMA_API_URL "gemma3:1b" "list the files in long format"]
      (Return (Some "ls -l")).
Proof.
  split; [reflexivity |].
  apply (bare_command_returned cfg0 "gemma3:1b" "list the files in long format" "  ls -l ");
    reflexivity.
Defined.

(** ** Configuration *)

(** After [load_dotenv] a name has the value it had, or else the value the
    file gives it. *)
Lemma load_dotenv_lookup (values : gmap string (option string))
    (environ : gmap string string) (key : string) :
  load_dotenv values environ !! key =
  match environ !! key with
  | Some v => Some v
  | None => match values !! key with Some (Some v) => Some v | _ => None end
  end.
Proof.
  unfold load_dotenv. revert key.
  apply (map_fold_weak_ind
           (fun (env : gmap string string) (vals : gmap string (option string)) =>
              forall key, env !! key =
                          match environ !! key with
                          | Some v => Some v
                          | None => match vals !! key with
                                    | Some (Some v) => Some v
                                    | _ => None
                                    end
                          end)).
  - intros key. rewrite lookup_empty. by destruct (environ !! key).
  - intros i x m r Hfresh IH key.
    destruct (decide (key = i)) as [-> | Hne].
    + rewrite lookup_insert_eq. pose proof (IH i) as Hi. rewrite Hfresh in Hi.
      destruct (environ !! i) as [v|] eqn:He; rewrite Hi.
      * exact Hi.
      * destruct x as [y|]; [by rewrite lookup_insert_eq | exact Hi].
    + rewrite lookup_insert_ne by done. rewrite <- IH.
      destruct (r !! i); [reflexivity |].
      destruct x as [y|]; [by rewrite lookup_insert_ne | reflexivity].
Qed.

Lemma getenv_loaded (environ : gmap string string)
    (dotenv : option (gmap string (option string))) (key default : string) :
  getenv (environ_loaded environ dotenv) key default = resolve environ dotenv key default.
Proof.
  unfold getenv, resolve, environ_loaded, file_value.
  destruct dotenv as [values|].
  - rewrite load_dotenv_lookup.
    destruct (environ !! key); [reflexivity |].
    by destruct (values !! key) as [[v|]|].
  - by destruct (environ !! key).
Qed.

Lemma load_configuration_run (environ : gmap string string)
    (dotenv : option (gmap string (option string))) :
  load_configuration environ dotenv =
  let api_url := resolve environ dotenv "OLLAMA_API_URL" DEFAULT_OLLAMA_API_URL in
  let default_model :=
    resolve environ dotenv "OLLAMA_DEFAULT_MODEL" DEFAULT_OLLAMA_MODEL in
  Run (if negb (bool_decide (is_Some dotenv))
          && (String.eqb api_url DEFAULT_OLLAMA_API_URL
              && String.eqb default_model DEFAULT_OLLAMA_MODEL)
       then diagnostic else [])
      (Return (api_url, default_model)).
Proof.
  unfold load_configuration. cbn zeta. rewrite !getenv_loaded.
  destruct (negb _ && _); reflexivity.
Qed.

(** C8, as stated, fails: a configuration file that exists and assigns
    neither variable leaves the defaults in place without the diagnostic. *)
Lemma diagnostic_counterexample :
  ~ (forall (environ : gmap string string)
            (dotenv : option (gmap string (option string))),
        nothing_supplied environ dotenv ->
        In (Print stderr InfoNoEnvFile) (trace (load_configuration environ dotenv))).
Proof.
  intros H.
  assert (Hno : nothing_supplied ∅ (Some ∅)).
  { intros key _. split; [apply lookup_empty |].
    unfold file_value. by rewrite lookup_empty. }
  specialize (H ∅ (Some ∅) Hno).
  rewrite load_configuration_run in H. cbn zeta in H.
  rewrite bool_decide_eq_true_2 in H by by eexists.
  exact H.
Qed.

(** C8, as amended.  [load_configuration] returns, for each of the two
    variables, the value of the process environment when it is set there,
    else the value the configuration file assigns, else the default;
    loading the file changes no variable that is already set; and the
    diagnostic is printed on the error stream exactly when the file does not
    exist and both values returned are the defaults, which is the case when
    the file does not exist and the environment sets neither variable. *)
Theorem configuration_precedence (environ : gmap string string)
    (dotenv : option (gmap string (option string))) :
  exists api_url default_model : string,
    outcome (load_configuration environ dotenv) = Return (api_url, default_model) /\
    api_url = resolve environ dotenv "OLLAMA_API_URL" DEFAULT_OLLAMA_API_URL /\
    default_model = resolve environ dotenv "OLLAMA_DEFAULT_MODEL" DEFAULT_OLLAMA_MODEL /\
    (forall key v, environ !! key = Some v ->
                   environ_loaded environ dotenv !! key = Some v) /\
    (forall v, environ !! "OLLAMA_API_URL" = Some v -> api_url = v) /\
    (forall v, environ !! "OLLAMA_DEFAULT_MODEL" = Some v -> default_model = v) /\
    (nothing_supplied environ dotenv ->
     api_url = DEFAULT_OLLAMA_API_URL /\ default_model = DEFAULT_OLLAMA_MODEL) /\
    (trace (load_configuration environ dotenv) = diagnostic \/
     trace (load_configuration environ dotenv) = []) /\
    (trace (load_configuration environ dotenv) = diagnostic <->
     dotenv = None /\ api_url = DEFAULT_OLLAMA_API_URL
     /\ default_model = DEFAULT_OLLAMA_MODEL) /\
    (dotenv = None -> nothing_supplied environ dotenv ->
     trace (load_configuration environ dotenv) = diagnostic).
Proof.
  assert (Hnone : nothing_supplied environ dotenv ->
                  resolve environ dotenv "OLLAMA_API_URL" DEFAULT_OLLAMA_API_URL
                  = DEFAULT_OLLAMA_API_URL /\
                  resolve environ dotenv "OLLAMA_DEFAULT_MODEL" DEFAULT_OLLAMA_MODEL
                  = DEFAULT_OLLAMA_MODEL).
  { intros Hno. unfold resolve.
    destruct (Hno "OLLAMA_API_URL") as [-> ->]; [by left |].
    destruct (Hno "OLLAMA_DEFAULT_MODEL") as [-> ->]; [by right |]. done. }
  eexists _, _. rewrite load_configuration_run. cbn zeta. cbn [outcome trace].
  split; [reflexivity |]. split; [reflexivity |]. split; [reflexivity |].
  split; [| split; [| split; [| split; [| split; [| split]]]]].
  - intros key v Hkey. unfold environ_loaded. destruct dotenv as [values|]; [| done].
    by rewrite load_dotenv_lookup, Hkey.
  - intros v Hv. unfold resolve. by rewrite Hv.
  - intros v Hv. unfold resolve. by rewrite Hv.
  - exact Hnone.
  - destruct (negb _ && _); [by left | by right].
  - destruct dotenv as [values|]; cbn [is_Some bool_decide negb andb].
    + rewrite bool_decide_eq_true_2 by by eexists. cbn [negb andb].
      split; [discriminate | intros [H _]; discriminate H].
    + rewrite bool_decide_eq_false_2 by (intros [? ?]; discriminate). cbn [negb andb].
      destruct (String.eqb_spec
                  (resolve environ None "OLLAMA_API_URL" DEFAULT_OLLAMA_API_URL)
                  DEFAULT_OLLAMA_API_URL) as [Hu | Hu];
        destruct (String.eqb_spec
                    (resolve environ None "OLLAMA_DEFAULT_MODEL" DEFAULT_OLLAMA_MODEL)
                    DEFAULT_OLLAMA_MODEL) as [Hm | Hm]; cbn [andb].
      * done.
      * split; [discriminate | intros (_ & _ & H); done].
      * split; [discriminate | intros (_ & H & _); done].
      * split; [discriminate | intros (_ & H & _); done].
  - intros -> Hno. destruct (Hnone Hno) as [-> ->].
    rewrite bool_decide_eq_false_2 by (intros [? ?]; discriminate). reflexivity.
Qed.

(** ** The whole script *)

(** Loading the configuration never ends the process and runs nothing: the
    script exits as [main] does, with the configuration that was loaded. *)
Lemma script_main (environ : gmap string string)
    (dotenv : option (gmap string (option string))) (args : arguments) (w : world) :
  let cfg := Config (resolve environ dotenv "OLLAMA_API_URL" DEFAULT_OLLAMA_API_URL)
                    (resolve environ dotenv "OLLAMA_DEFAULT_MODEL" DEFAULT_OLLAMA_MODEL) in
  exit_status (script environ dotenv (Parsed args) w) = exit_status (main cfg args w) /\
  executed (script environ dotenv (Parsed args) w) = executed (main cfg args w).
Proof.
  unfold script, exit_status, executed.
  rewrite load_configuration_run. cbn zeta. rewrite bind_run.
  change (parse_args (Parsed args)) with (Run [] (Return args)).
  rewrite bind_run. cbn [outcome trace app].
  split; [reflexivity |].
  rewrite existsb_app. by destruct (negb _ && _).
Qed.

(** A run argparse ends: whatever the configuration printed, then the text
    of argparse, then the exit. *)
Lemma script_not_parsed (environ : gmap string string)
    (dotenv : option (gmap string (option string))) (w : world) :
  script environ dotenv Refused w =
  Run (trace (load_configuration environ dotenv) ++ [Print stderr UsageError])
      (SysExit 2) /\
  script environ dotenv Help w =
  Run (trace (load_configuration environ dotenv) ++ [Print stdout HelpText])
      (SysExit 0).
Proof.
  unfold script. rewrite load_configuration_run. cbn zeta. rewrite bind_run.
  split; reflexivity.
Qed.

(** * Further properties of the script *)

(** ** The clean-up loop *)

(** X1.  The candidate is the first trimmed line that is not empty and has
    none of the skipped prefixes in front, as it stands, and the empty
    string when there is no such line: the fence-stripping code never
    changes a line. *)
Theorem potential_command_first_qualifying (lines : list string) :
  potential_command lines =
  default EmptyString (find qualifies (map Py.strip lines)).
Proof.
  induction lines as [|line lines IH]; [reflexivity |].
  cbn [potential_command map find]. fold (qualifies (Py.strip line)).
  destruct (qualifies (Py.strip line)) eqn:Hq; [| exact IH].
  cbn [default]. apply unfence_plain, not_skipped_no_backtick.
  unfold qualifies in Hq. apply andb_true_iff in Hq as [_ Hq].
  by apply negb_true_iff in Hq.
Qed.

(** ** What [query_ollama] returns *)

Lemma split_never_empty (sep : ascii) (s : string) : Py.split sep s <> [].
Proof.
  destruct s as [|c s]; cbn [Py.split]; [discriminate |].
  destruct (Ascii.eqb c sep); [discriminate |].
  destruct (Py.split sep s); discriminate.
Qed.

(** No piece of [s.split(sep)] holds the separator. *)
Lemma split_pieces_no_sep (sep : ascii) (s : string) :
  forall piece, In piece (Py.split sep s) ->
                Py.contains piece (String sep EmptyString) = false.
Proof.
  induction s as [|c s IH]; intros piece Hin.
  - cbn in Hin. destruct Hin as [<- | []]. reflexivity.
  - cbn [Py.split] in Hin. destruct (Ascii.eqb c sep) eqn:Hc.
    + destruct Hin as [<- | Hin]; [reflexivity | by apply IH].
    + destruct (Py.split sep s) as [|l ls] eqn:Hs.
      * destruct Hin as [<- | []]. cbn. by rewrite Hc.
      * destruct Hin as [<- | Hin].
        -- cbn [Py.contains Py.startswith]. rewrite Hc. cbn [andb orb].
           apply IH. by left.
        -- apply IH. by right.
Qed.

Lemma contains_lstrip (s p : string) :
  Py.contains (Py.lstrip s) p = true -> Py.contains s p = true.
Proof.
  induction s as [|c s IH]; [done |].
  cbn [Py.lstrip]. destruct (Py.isspace c); [| done].
  intros H. cbn [Py.contains]. by rewrite (IH H), orb_true_r.
Qed.

Lemma contains_char_rstrip (s : string) (c : ascii) :
  Py.contains (Py.rstrip s) (String c EmptyString) = true ->
  Py.contains s (String c EmptyString) = true.
Proof.
  induction s as [|a s IH]; [done |].
  rewrite rstrip_cons. cbn [Py.contains Py.startswith].
  destruct (Py.rstrip s) as [|d r] eqn:Hr.
  - destruct (Py.isspace a); [discriminate |].
    cbn. rewrite !orb_false_r. intros ->. reflexivity.
  - cbn [Py.contains Py.startswith]. intros H.
    apply orb_true_iff in H as [H | H]; [by rewrite H |].
    by rewrite (IH H), orb_true_r.
Qed.

(** Trimming a line brings no line feed into it. *)
Lemma strip_no_char (s : string) (c : ascii) :
  Py.contains s (String c EmptyString) = false ->
  Py.contains (Py.strip s) (String c EmptyString) = false.
Proof.
  intros Hs. destruct (Py.contains (Py.strip s) _) eqn:H; [| reflexivity].
  unfold Py.strip in H. apply contains_char_rstrip, contains_lstrip in H.
  congruence.
Qed.

(** A candidate that is not empty is one of the lines, trimmed, and has
    none of the skipped prefixes in front. *)
Lemma potential_command_taken (lines : list string) :
  Py.truthy (potential_command lines) = true ->
  exists line, In line lines /\ Py.strip line = potential_command lines /\
               Py.startswith_any (Py.lower (potential_command lines))
                                 skipped_prefixes = false.
Proof.
  induction lines as [|line lines IH]; [discriminate |].
  cbn [potential_command].
  destruct (Py.truthy (Py.strip line)
            && negb (Py.startswith_any (Py.lower (Py.strip line)) skipped_prefixes))
    eqn:Htake.
  - intros _. apply andb_true_iff in Htake as [_ Hskip].
    apply negb_true_iff in Hskip.
    rewrite (unfence_plain _ (not_skipped_no_backtick _ Hskip)).
    exists line. split; [by left | done].
  - intros Hne. destruct (IH Hne) as (l & Hin & Hl & Hskip).
    exists l. split; [by right | done].
Qed.

(** X2.  A command [query_ollama] returns comes from a JSON reply and is one
    of its trimmed lines: it is not empty, it is trimmed, it holds no line
    feed, it begins with none of the skipped prefixes, and it does not
    contain [ERROR:]. *)
Theorem query_ollama_result (cfg : config) (model prompt_text : string)
    (r : http_reply) (command : string) :
  outcome (query_ollama cfg model prompt_text r) = Return (Some command) ->
  exists response,
    r = Reply response /\
    In command (map Py.strip (response_lines response)) /\
    Py.truthy command = true /\
    Py.strip command = command /\
    Py.contains command (String Py.newline EmptyString) = false /\
    Py.startswith_any (Py.lower command) skipped_prefixes = false /\
    Py.contains command "ERROR:" = false.
Proof.
  destruct r as [| |[d|]|[] text|response];
    try (intros H; discriminate H).
  unfold query_ollama. rewrite !outcome_bind. cbn [outcome print emit].
  rewrite cleanup_run. cbn zeta.
  destruct (Py.truthy (potential_command (response_lines response))) eqn:Hne;
    cbn [negb orb]; [| intros H; discriminate H].
  destruct (Py.contains (potential_command (response_lines response)) "ERROR:")
    eqn:Herr; [intros H; discriminate H |].
  intros [= <-]. exists response.
  destruct (potential_command_taken _ Hne) as (line & Hin & Hline & Hskip).
  repeat split; try done.
  - apply in_map_iff. by exists line.
  - rewrite <- Hline. apply strip_idempotent.
  - rewrite <- Hline. apply strip_no_char.
    by apply (split_pieces_no_sep Py.newline
                (Py.strip (default EmptyString response)) line).
Qed.

Lemma query_ollama_result_witness :
  outcome (query_ollama cfg0 "gemma3:1b" "show the disk usage"
             (Reply (Some ("Here is the command:" +:+ String Py.newline "  du -sh .  "))))
  = Return (Some "du -sh .") /\
  Py.strip "du -sh ." = "du -sh ." /\
  Py.contains "du -sh ." "ERROR:" = false.
Proof.
  split; [reflexivity |].
  destruct (query_ollama_result cfg0 "gemma3:1b" "show the disk usage"
              (Reply (Some ("Here is the command:" +:+ String Py.newline "  du -sh .  ")))
              "du -sh ." eq_refl)
    as (response & _ & _ & _ & Hstrip & _ & _ & Herr).
  split; [exact Hstrip | exact Herr].
Defined.

(** X3.  [query_ollama] writes on the error stream exactly when it returns
    [None]: no failure is silent, and a command is returned without any
    error text. *)
Theorem query_ollama_reports_failure (cfg : config) (model prompt_text : string)
    (r : http_reply) :
  existsb is_stderr (trace (query_ollama cfg model prompt_text r)) = true <->
  outcome (query_ollama cfg model prompt_text r) = Return None.
Proof.
  destruct r as [| |[d|]|[] text|response]; try (split; reflexivity).
  unfold query_ollama. rewrite !trace_bind, !outcome_bind.
  cbn [outcome trace print emit]. rewrite cleanup_run. cbn zeta.
  destruct (negb _ || _); cbn; split; try done; discriminate.
Qed.

(** ** Blank commands and the lexer *)

Lemma truthy_append_char (token : string) (c : ascii) :
  Py.truthy (Shlex.append_char token c) = true.
Proof. destruct token; reflexivity. Qed.

(** From a productive state the pass ends with a token or with an error. *)
Lemma lex_productive (instream : string) :
  forall (state escapedstate : Shlex.lex_state) (quoted : bool) (token : string),
    productive state escapedstate quoted token = true ->
    Shlex.lex state escapedstate quoted token instream <> Some [].
Proof.
  induction instream as [|nextchar instream IH];
    intros state escapedstate quoted token Hprod.
  - destruct state, escapedstate; cbn in Hprod; try discriminate Hprod;
      cbn; try discriminate;
      unfold Shlex.result_of;
      destruct (Py.truthy token), quoted; try discriminate Hprod; cbn; discriminate.
  - assert (Hemit : forall more,
               Py.truthy token || quoted = true ->
               match Shlex.result_of quoted token with
               | Some token' => Shlex.emit token' more
               | None => Some []
               end <> Some []).
    { intros more H. unfold Shlex.result_of.
      destruct (Py.truthy token), quoted; try discriminate H; cbn;
        destruct more; discriminate. }
    destruct state; cbn [Shlex.lex].
    + destruct escapedstate; discriminate Hprod.
    + (* between words *)
      assert (Hes : escapedstate <> Shlex.st_eof)
        by (intros ->; discriminate Hprod).
      assert (Htok : Py.truthy token || quoted = true)
        by (destruct escapedstate; done).
      destruct (Shlex.char_in nextchar Shlex.whitespace).
      * rewrite Htok. by apply Hemit.
      * destruct (Shlex.char_in nextchar Shlex.escape); [by apply IH |].
        destruct (Shlex.char_in nextchar Shlex.quotes).
        -- apply IH. by destruct escapedstate.
        -- apply IH. by destruct escapedstate.
    + (* in a word *)
      assert (Hes : escapedstate <> Shlex.st_eof)
        by (intros ->; discriminate Hprod).
      assert (Htok : Py.truthy token || quoted = true)
        by (destruct escapedstate; done).
      destruct (Shlex.char_in nextchar Shlex.whitespace).
      * rewrite Htok. by apply Hemit.
      * destruct (Shlex.char_in nextchar Shlex.quotes).
        -- apply IH. by destruct escapedstate.
        -- destruct (Shlex.char_in nextchar Shlex.escape); [by apply IH |].
           apply IH. destruct escapedstate; try done; unfold productive;
             by rewrite truthy_append_char.
    + (* in a quote *)
      assert (Hes : escapedstate <> Shlex.st_eof)
        by (intros ->; discriminate Hprod).
      destruct (Ascii.eqb nextchar q).
      * apply IH. cbn. destruct escapedstate; try done; by rewrite orb_true_r.
      * destruct (_ && _); apply IH; [done | by destruct escapedstate].
    + (* behind a backslash *)
      assert (Hes : escapedstate <> Shlex.st_eof)
        by (intros ->; discriminate Hprod).
      apply IH. destruct escapedstate; try done; unfold productive;
        by rewrite truthy_append_char.
Qed.

(** The pass gives no token exactly on a blank text. *)
Lemma lex_nil_blank (instream : string) :
  Shlex.lex Shlex.st_space Shlex.st_space false EmptyString instream = Some [] <->
  blank instream = true.
Proof.
  induction instream as [|c instream IH]; [done |].
  cbn [Shlex.lex blank Py.truthy orb].
  destruct (Shlex.char_in c Shlex.whitespace); cbn [andb]; [exact IH |].
  split; [| discriminate].
  intros H. exfalso. revert H.
  destruct (Shlex.char_in c Shlex.escape); [by apply lex_productive |].
  destruct (Shlex.char_in c Shlex.quotes); by apply lex_productive.
Qed.

Lemma whitespace_isspace (c : ascii) :
  Shlex.char_in c Shlex.whitespace = true -> Py.isspace c = true.
Proof. destruct c as [[] [] [] [] [] [] [] []]; vm_compute; done. Qed.

Lemma blank_lstrip (s : string) : blank s = true -> Py.lstrip s = EmptyString.
Proof.
  induction s as [|c s IH]; [done |].
  cbn [blank Py.lstrip]. intros H. apply andb_true_iff in H as [Hc Hs].
  by rewrite (whitespace_isspace c Hc), IH.
Qed.

(** X6.  [shlex.split] gives no token exactly for a command made of blanks
    (space, tab, CR, LF), and [is_destructive] then returns [False] without
    a warning: these, with the empty command, are the commands the table is
    never consulted for. *)
Theorem blank_command_not_destructive (command : string) :
  (Shlex.split command = Some [] <-> blank command = true) /\
  (blank command = true -> is_destructive command = Run [] (Return false)).
Proof.
  assert (Hsplit : Shlex.split command = Some [] <-> blank command = true).
  { rewrite split_lex. apply lex_nil_blank. }
  split; [exact Hsplit |].
  intros Hblank. apply Hsplit in Hblank. unfold is_destructive.
  destruct (negb (Py.truthy command)); [reflexivity |].
  by rewrite Hblank.
Qed.

Lemma startswith_empty (p : string) :
  Py.startswith EmptyString (p +:+ " ") = false.
Proof. destruct p; reflexivity. Qed.

(** X5.  A command whose trimmed text begins with an entry of the table and
    a space is classified destructive, whether it tokenizes or not and
    whatever its first token is. *)
Theorem leading_keyword_destructive (command d : string) :
  In d DESTRUCTIVE_COMMANDS ->
  Py.startswith (Py.strip command) (d +:+ " ") = true ->
  outcome (is_destructive command) = Return true.
Proof.
  intros Hd Hpre.
  destruct (Shlex.split command) as [[|first_command rest]|] eqn:Hsplit.
  - exfalso. rewrite split_lex in Hsplit. apply lex_nil_blank in Hsplit.
    unfold Py.strip in Hpre. rewrite (blank_lstrip _ Hsplit) in Hpre.
    cbn [Py.rstrip] in Hpre. by rewrite startswith_empty in Hpre.
  - rewrite (is_destructive_tokens _ _ _ Hsplit).
    destruct (_ && _); [reflexivity |]. cbn [outcome]. f_equal.
    apply existsb_matches. right. by exists d.
  - unfold is_destructive. destruct command as [|c command'].
    + rewrite split_empty in Hsplit. discriminate Hsplit.
    + cbn [Py.truthy negb]. by rewrite Hsplit.
Qed.

Lemma leading_keyword_destructive_witness :
  In "docker rm" DESTRUCTIVE_COMMANDS /\
  Py.startswith (Py.strip docker_rm_unclosed) ("docker rm" +:+ " ") = true /\
  Shlex.split docker_rm_unclosed = None /\
  outcome (is_destructive docker_rm_unclosed) = Return true /\
  outcome (is_destructive "docker rm -f web") = Return true.
Proof.
  assert (Hd : In "docker rm" DESTRUCTIVE_COMMANDS) by (cbn; tauto).
  split; [exact Hd |]. split; [reflexivity |]. split; [reflexivity |]. split.
  - apply (leading_keyword_destructive docker_rm_unclosed "docker rm" Hd). reflexivity.
  - apply (leading_keyword_destructive "docker rm -f web" "docker rm" Hd). reflexivity.
Defined.

(** A trimmed text that is not empty is not blank. *)
Lemma stripped_not_blank (line : string) :
  Py.truthy (Py.strip line) = true -> blank (Py.strip line) = false.
Proof.
  unfold Py.strip. destruct (lstrip_head line) as [-> | (c & s & -> & Hc)].
  - discriminate.
  - intros _. destruct (rstrip_head c s Hc) as (r & ->). cbn [blank].
    destruct (Shlex.char_in c Shlex.whitespace) eqn:Hw; [| reflexivity].
    apply whitespace_isspace in Hw. congruence.
Qed.

(** X4.  On a command that comes from [query_ollama] the two early exits of
    [is_destructive] are never taken: the command is not empty and
    [shlex.split], when it does not fail, gives at least one token; so the
    verdict [False] is always the outcome of the look-up in the table. *)
Theorem query_result_tokenizes (cfg : config) (model prompt_text : string)
    (r : http_reply) (command : string) :
  outcome (query_ollama cfg model prompt_text r) = Return (Some command) ->
  Py.truthy command = true /\
  Shlex.split command <> Some [] /\
  (outcome (is_destructive command) = Return false ->
   exists first_command rest,
     Shlex.split command = Some (first_command :: rest) /\
     existsb (matches first_command command) DESTRUCTIVE_COMMANDS = false).
Proof.
  destruct r as [| |[d|]|[] text|response];
    try (intros H; discriminate H).
  unfold query_ollama. rewrite !outcome_bind. cbn [outcome print emit].
  rewrite cleanup_run. cbn zeta.
  destruct (Py.truthy (potential_command (response_lines response))) eqn:Hne;
    cbn [negb orb]; [| intros H; discriminate H].
  destruct (Py.contains _ "ERROR:"); [intros H; discriminate H |].
  intros [= <-].
  destruct (potential_command_taken _ Hne) as (line & _ & Hline & _).
  assert (Hnil : Shlex.split (potential_command (response_lines response)) <> Some []).
  { intros Hsplit. rewrite split_lex in Hsplit. apply lex_nil_blank in Hsplit.
    rewrite <- Hline in Hsplit, Hne.
    by rewrite (stripped_not_blank line Hne) in Hsplit. }
  split; [exact Hne |]. split; [exact Hnil |].
  destruct (Shlex.split (potential_command (response_lines response)))
    as [[|first_command rest]|] eqn:Hsplit.
  - done.
  - rewrite (is_destructive_tokens _ _ _ Hsplit).
    destruct (_ && _); [intros H; discriminate H |].
    cbn [outcome]. intros [= Hm]. by exists first_command, rest.
  - unfold is_destructive. rewrite Hne, Hsplit. intros H. discriminate H.
Qed.

Lemma query_result_tokenizes_witness :
  outcome (query_ollama cfg0 "gemma3:1b" "list the files in long format"
             (Reply (Some "ls -l"))) = Return (Some "ls -l") /\
  Shlex.split "ls -l" <> Some [].
Proof.
  split; [reflexivity |].
  destruct (query_result_tokenizes cfg0 "gemma3:1b" "list the files in long format"
              (Reply (Some "ls -l")) "ls -l" eq_refl) as (_ & Hnil & _).
  exact Hnil.
Defined.

(** ** Whole runs *)

Lemma is_destructive_no_post (command : string) :
  existsb is_post (trace (is_destructive command)) = false.
Proof.
  unfold is_destructive.
  destruct (negb (Py.truthy command)); [reflexivity |].
  destruct (Shlex.split command) as [[|first_command rest]|]; try reflexivity.
  destruct (_ && _); [reflexivity |].
  destruct (existsb (matches _ _) _); reflexivity.
Qed.

Lemma confirmation_no_post (args : arguments) (command : string) (answer : input_result) :
  existsb is_post (trace (confirmation args command answer)) = false.
Proof.
  destruct (is_destructive_returns command) as (d & t & Hd & _ & _).
  pose proof (is_destructive_no_post command) as Hpost. rewrite Hd in Hpost.
  cbn [trace] in Hpost.
  rewrite (confirmation_run args command answer t d Hd).
  destruct (interactive args); [| reflexivity].
  destruct (yes args).
  - destruct d; cbn [trace]; by rewrite existsb_app, Hpost.
  - cbn [trace]. rewrite existsb_app, Hpost, ask_run.
    destruct answer as [confirm| |]; [destruct (String.eqb _ _) |..]; reflexivity.
Qed.

(** [execute_command] starts the command once and sends no request. *)
Lemma execute_command_once (command : string) (r : run_result) :
  exists t, execute_command command r =
            Run (Print stdout (Executing command) :: Print stdout Rule
                 :: SubprocessRun command :: t) (Return tt) /\
            existsb is_run t = false /\ existsb is_post t = false.
Proof.
  unfold execute_command. destruct r as [out err returncode|].
  - destruct (Py.truthy out), (Py.truthy err), (returncode =? 0)%Z;
      cbn; eexists; repeat split; reflexivity.
  - eexists. repeat split; reflexivity.
Qed.

(** The trace of [query_ollama]: the progress line, the request, and then
    nothing but error texts. *)
Lemma query_ollama_trace (cfg : config) (model prompt_text : string) (r : http_reply) :
  exists t o,
    query_ollama cfg model prompt_text r =
    Run (Print stdout (SendingPrompt model (OLLAMA_API_URL cfg))
         :: Post (OLLAMA_API_URL cfg) model prompt_text :: t) (Return o) /\
    existsb is_post t = false /\ existsb is_run t = false /\
    (forall command, o = Some command -> t = [] /\ Py.truthy command = true).
Proof.
  assert (Hnone : forall t : list event,
             existsb is_post t = false -> existsb is_run t = false ->
             existsb is_post t = false /\ existsb is_run t = false /\
             (forall command : string,
                 None = Some command -> t = [] /\ Py.truthy command = true)).
  { intros t H1 H2. split; [exact H1 |]. split; [exact H2 |]. discriminate. }
  unfold query_ollama.
  destruct r as [| |[d|]|[] text|response];
    try (eexists _, None; cbn; split; [reflexivity | by apply Hnone]).
  rewrite cleanup_run. cbn zeta.
  destruct (Py.truthy (potential_command (response_lines response))) eqn:Hne;
    cbn [negb orb].
  - destruct (Py.contains _ _).
    + eexists _, None; cbn; split; [reflexivity | by apply Hnone].
    + eexists _, (Some _); cbn. split; [reflexivity |].
      split; [reflexivity |]. split; [reflexivity |].
      by intros command [= <-].
  - eexists _, None; cbn; split; [reflexivity | by apply Hnone].
Qed.

Lemma confirmation_true (args : arguments) (command : string) (answer : input_result) :
  outcome (confirmation args command answer) = Return true <->
  interactive args = true /\ (yes args = true \/ accepted answer).
Proof.
  destruct (is_destructive_returns command) as (d & t & Hd & _ & _).
  rewrite (confirmation_run args command answer t d Hd).
  destruct (interactive args); [| split; [discriminate | intros [H _]; discriminate H]].
  destruct (yes args).
  - destruct d; cbn [outcome]; split; auto.
  - cbn [outcome]. rewrite ask_true. split.
    + intros H. auto.
    + intros (_ & [H | H]); [discriminate H | exact H].
Qed.

(** Where [subprocess.run] stands in a trace that holds it once. *)
Lemma run_unique (before : list event) :
  forall (after pre post : list event) (x y : event),
    existsb is_run before = false -> existsb is_run after = false ->
    is_run y = true ->
    before ++ x :: after = pre ++ y :: post ->
    pre = before /\ y = x /\ post = after.
Proof.
  induction before as [|a before IH]; intros after pre post x y Hb Ha Hy Heq.
  - destruct pre as [|p pre]; cbn in Heq.
    + by injection Heq as -> ->.
    + injection Heq as -> ->. rewrite existsb_app in Ha. cbn in Ha.
      by rewrite Hy, orb_true_r in Ha.
  - cbn in Hb. apply orb_false_iff in Hb as [Hrun Hb].
    destruct pre as [|p pre]; cbn in Heq.
    + injection Heq as -> _. congruence.
    + injection Heq as -> Heq.
      destruct (IH after pre post x y Hb Ha Hy Heq) as (-> & -> & ->). done.
Qed.

(** X7.  Whatever [main] runs is the command [query_ollama] returned, it was
    printed as the suggestion before, and nothing else is run before or
    after it. *)
Theorem main_runs_the_suggestion (cfg : config) (args : arguments) (w : world)
    (pre post : list event) (command : string) :
  trace (main cfg args w) = pre ++ SubprocessRun command :: post ->
  outcome (query_ollama cfg (default (OLLAMA_DEFAULT_MODEL cfg) (model args))
                        (prompt args) (reply w)) = Return (Some command) /\
  In (Print stdout (Suggested command)) pre /\
  existsb is_run pre = false /\ existsb is_run post = false.
Proof.
  destruct (query_ollama_shape cfg (default (OLLAMA_DEFAULT_MODEL cfg) (model args))
              (prompt args) (reply w)) as (tq & o & Hq & Hrun & _ & Hholds).
  destruct (confirmation_quiet args (default EmptyString o) (typed w)) as (Hquiet & _).
  unfold executed in Hquiet.
  assert (Hnone : forall t : list event,
             existsb is_run t = false -> t <> pre ++ SubprocessRun command :: post).
  { intros t Ht ->. rewrite existsb_app in Ht. cbn in Ht.
    by rewrite orb_true_r in Ht. }
  destruct o as [c|].
  - cbn in Hholds. rewrite (main_candidate cfg args w tq c Hq Hholds). cbn zeta.
    change (default EmptyString (Some c)) with c in Hquiet.
    destruct (execute_command_once c (spawned w)) as (te & He & Hte & _).
    destruct (outcome (confirmation args c (typed w))) as [[]|code]; cbn [trace].
    + rewrite He. cbn [trace]. intros Heq.
      change (tq ++ Print stdout (Suggested c)
                 :: trace (confirmation args c (typed w))
                 ++ Print stdout (Executing c) :: Print stdout Rule
                 :: SubprocessRun c :: te)
        with (tq ++ (Print stdout (Suggested c)
                 :: trace (confirmation args c (typed w)))
                 ++ [Print stdout (Executing c); Print stdout Rule]
                 ++ SubprocessRun c :: te) in Heq.
      rewrite !app_assoc in Heq.
      apply run_unique in Heq as (-> & [= ->] & ->); try done.
      * rewrite Hq. split; [reflexivity |]. split; [| split; [| done]].
        -- apply in_or_app. left. apply in_or_app. right. by left.
        -- rewrite !existsb_app. cbn [existsb is_run]. by rewrite Hrun, Hquiet.
      * rewrite !existsb_app. cbn [existsb is_run]. by rewrite Hrun, Hquiet.
    + intros Heq. exfalso. revert Heq. apply Hnone.
      rewrite !existsb_app. cbn [existsb is_run]. rewrite existsb_app.
      by rewrite Hrun, Hquiet.
    + intros Heq. exfalso. revert Heq. apply Hnone.
      rewrite !existsb_app. cbn [existsb is_run]. by rewrite Hrun, Hquiet.
  - rewrite (main_absent cfg args w tq Hq). cbn [trace].
    intros Heq. exfalso. revert Heq. apply Hnone.
    by rewrite existsb_app, Hrun.
Qed.

Lemma main_runs_the_suggestion_witness :
  trace (main cfg0 args_iy world_rm) =
  trace_before_rm ++ SubprocessRun "rm temporary.log" :: trace_after_rm /\
  In (Print stdout (Suggested "rm temporary.log")) trace_before_rm /\
  existsb is_run trace_after_rm = false.
Proof.
  split; [reflexivity |].
  destruct (main_runs_the_suggestion cfg0 args_iy world_rm
              trace_before_rm trace_after_rm "rm temporary.log" eq_refl)
    as (_ & Hin & _ & Hpost).
  split; [exact Hin | exact Hpost].
Defined.

(** When [main] runs a command, the gate confirmed it. *)
Lemma main_executed (cfg : config) (args : arguments) (w : world)
    (tq : list event) (command : string) :
  query_ollama cfg (default (OLLAMA_DEFAULT_MODEL cfg) (model args))
               (prompt args) (reply w) = Run tq (Return (Some command)) ->
  Py.truthy command = true ->
  existsb is_run tq = false ->
  (executed (main cfg args w) = true <->
   outcome (confirmation args command (typed w)) = Return true).
Proof.
  intros Hq Hc Hrun. rewrite (main_candidate cfg args w tq command Hq Hc). cbn zeta.
  destruct (confirmation_quiet args command (typed w)) as (Hquiet & _).
  destruct (execute_command_once command (spawned w)) as (te & He & _ & _).
  unfold executed in *.
  destruct (outcome (confirmation args command (typed w))) as [[]|code];
    cbn [trace]; rewrite !existsb_app; cbn [existsb is_run];
    rewrite ?existsb_app, Hrun, Hquiet.
  - rewrite He. cbn. done.
  - cbn. split; discriminate.
  - cbn. split; discriminate.
Qed.

(** X9.  [main] runs a command exactly when the inference stage produced
    one, interactive mode was requested, and either auto-confirm was
    requested or the user typed [y] or [Y] at the prompt. *)
Theorem execution_iff (cfg : config) (args : arguments) (w : world) :
  executed (main cfg args w) = true <->
  (exists command,
      outcome (query_ollama cfg (default (OLLAMA_DEFAULT_MODEL cfg) (model args))
                            (prompt args) (reply w)) = Return (Some command)) /\
  interactive args = true /\
  (yes args = true \/ accepted (typed w)).
Proof.
  destruct (query_ollama_shape cfg (default (OLLAMA_DEFAULT_MODEL cfg) (model args))
              (prompt args) (reply w)) as (tq & o & Hq & Hrun & _ & Hholds).
  destruct o as [command|].
  - cbn in Hholds.
    rewrite (main_executed cfg args w tq command Hq Hholds Hrun), confirmation_true.
    rewrite Hq. cbn [outcome]. split.
    + intros H. split; [by exists command | exact H].
    + intros (_ & H). exact H.
  - rewrite (main_absent cfg args w tq Hq), Hq. unfold executed. cbn [trace outcome].
    rewrite existsb_app, Hrun. cbn. split; [discriminate |].
    intros ((command & H) & _). discriminate H.
Qed.

(** X8.  A command classified destructive is never run in silence: either
    the user typed [y] or [Y] at the prompt that warns of a destructive
    command, or auto-confirm was requested and the warning that the command
    runs without confirmation was printed. *)
Theorem destructive_never_silent (cfg : config) (args : arguments) (w : world)
    (command : string) :
  outcome (query_ollama cfg (default (OLLAMA_DEFAULT_MODEL cfg) (model args))
                        (prompt args) (reply w)) = Return (Some command) ->
  verdict command = true ->
  executed (main cfg args w) = true ->
  (yes args = false /\ accepted (typed w) /\
   In (Input AskDestructive) (trace (main cfg args w))) \/
  (yes args = true /\
   In (Print stdout WarnNoConfirmation) (trace (main cfg args w))).
Proof.
  intros Hsome Hverdict Hexec.
  destruct (query_ollama_shape cfg (default (OLLAMA_DEFAULT_MODEL cfg) (model args))
              (prompt args) (reply w)) as (tq & o & Hq & Hrun & _ & Hholds).
  rewrite Hq in Hsome. cbn in Hsome. injection Hsome as ->. cbn in Hholds.
  apply (main_executed cfg args w tq command Hq Hholds Hrun) in Hexec.
  rewrite (main_candidate cfg args w tq command Hq Hholds). cbn zeta.
  rewrite Hexec. cbn [trace].
  destruct (is_destructive_returns command) as (d & t & Hd & _ & _).
  unfold verdict in Hverdict. rewrite Hd in Hverdict. cbn in Hverdict. subst d.
  rewrite (confirmation_run args command (typed w) t true Hd) in Hexec |- *.
  destruct (interactive args); [| discriminate Hexec].
  destruct (yes args); cbn [trace outcome] in *.
  - right. split; [reflexivity |].
    apply in_or_app. right. right. apply in_or_app. left.
    apply in_or_app. right. by left.
  - left. split; [reflexivity |]. split; [by apply ask_true in Hexec |].
    apply in_or_app. right. right. apply in_or_app. left.
    apply in_or_app. right. rewrite ask_run.
    destruct (typed w) as [confirm| |]; [destruct (String.eqb _ _) |..]; by left.
Qed.

Lemma destructive_never_silent_witness :
  verdict "rm temporary.log" = true /\
  executed (main cfg0 args_iy world_rm) = true /\
  In (Print stdout WarnNoConfirmation) (trace (main cfg0 args_iy world_rm)).
Proof.
  split; [reflexivity |]. split; [reflexivity |].
  destruct (destructive_never_silent cfg0 args_iy world_rm "rm temporary.log"
              eq_refl eq_refl eq_refl) as [(Hyes & _) | (_ & Hin)].
  - discriminate Hyes.
  - exact Hin.
Defined.

(** X12.  Without [-i], a run whose inference stage produced a command
    prints the progress line, posts the request, prints the suggestion and
    the note that nothing was run, and ends with status 0: nothing goes to
    the error stream, the classifier is not consulted, nobody is asked. *)
Theorem suggest_only_run (cfg : config) (args : arguments) (w : world)
    (command : string) :
  interactive args = false ->
  outcome (query_ollama cfg (default (OLLAMA_DEFAULT_MODEL cfg) (model args))
                        (prompt args) (reply w)) = Return (Some command) ->
  main cfg args w =
  Run [Print stdout (SendingPrompt (default (OLLAMA_DEFAULT_MODEL cfg) (model args))
                                   (OLLAMA_API_URL cfg));
       Post (OLLAMA_API_URL cfg) (default (OLLAMA_DEFAULT_MODEL cfg) (model args))
            (prompt args);
       Print stdout (Suggested command);
       Print stdout NotExecuted]
      (Return tt).
Proof.
  intros Hi Hsome.
  destruct (query_ollama_trace cfg (default (OLLAMA_DEFAULT_MODEL cfg) (model args))
              (prompt args) (reply w)) as (t & o & Hq & _ & _ & Ho).
  rewrite Hq in Hsome. cbn in Hsome. injection Hsome as ->.
  destruct (Ho command eq_refl) as (-> & Hne).
  rewrite (main_candidate cfg args w _ command Hq Hne). cbn zeta.
  destruct (is_destructive_returns command) as (d & td & Hd & _ & _).
  rewrite (confirmation_run args command (typed w) td d Hd), Hi.
  reflexivity.
Qed.

Lemma suggest_only_run_witness :
  outcome (query_ollama cfg0 "gemma3:1b" "delete the temporary file"
             (Reply (Some "rm temporary.log"))) = Return (Some "rm temporary.log") /\
  main cfg0 (Arguments "delete the temporary file" false true None) world_rm =
  Run [Print stdout (SendingPrompt "gemma3:1b" DEFAULT_OLLAMA_API_URL);
       Post DEFAULT_OLLAMA_API_URL "gemma3:1b" "delete the temporary file";
       Print stdout (Suggested "rm temporary.log");
       Print stdout NotExecuted]
      (Return tt).
Proof.
  split; [reflexivity |].
  apply (suggest_only_run cfg0 (Arguments "delete the temporary file" false true None)
           world_rm "rm temporary.log"); reflexivity.
Defined.

(** X10.  A run of the script whose command line argparse accepts sends
    one request and no more.  It goes to the endpoint the configuration
    resolved (environment, then file, then default), with the model of
    [--model] when that is given and else the default model the
    configuration resolved; it comes right after the configuration
    diagnostic, if any, and the progress line.  A run that argparse ends (a
    refused command line, [-h]) sends no request. *)
Theorem script_posts_once (environ : gmap string string)
    (dotenv : option (gmap string (option string))) (argv : command_line) (w : world) :
  match argv with
  | Parsed args =>
      exists t,
        trace (script environ dotenv (Parsed args) w) =
        trace (load_configuration environ dotenv)
        ++ Print stdout
             (SendingPrompt
                (default (resolve environ dotenv "OLLAMA_DEFAULT_MODEL" DEFAULT_OLLAMA_MODEL)
                         (model args))
                (resolve environ dotenv "OLLAMA_API_URL" DEFAULT_OLLAMA_API_URL))
        :: Post (resolve environ dotenv "OLLAMA_API_URL" DEFAULT_OLLAMA_API_URL)
                (default (resolve environ dotenv "OLLAMA_DEFAULT_MODEL" DEFAULT_OLLAMA_MODEL)
                         (model args))
                (prompt args)
        :: t /\
        existsb is_post t = false /\
        existsb is_post (trace (load_configuration environ dotenv)) = false
  | Refused | Help =>
      existsb is_post (trace (script environ dotenv argv w)) = false
  end.
Proof.
  set (cfg := Config (resolve environ dotenv "OLLAMA_API_URL" DEFAULT_OLLAMA_API_URL)
                     (resolve environ dotenv "OLLAMA_DEFAULT_MODEL" DEFAULT_OLLAMA_MODEL)).
  assert (Hdiag : existsb is_post (trace (load_configuration environ dotenv)) = false).
  { rewrite load_configuration_run. cbn zeta. cbn [trace].
    by destruct (negb _ && _). }
  destruct (script_not_parsed environ dotenv w) as (Hrefused & Hhelp).
  destruct argv as [args| |].
  - unfold script. rewrite load_configuration_run in *. cbn zeta in *.
    rewrite bind_run. change (parse_args (Parsed args)) with (Run [] (Return args)).
    rewrite bind_run. cbn [trace outcome app] in *. fold cfg.
    destruct (query_ollama_trace cfg (default (OLLAMA_DEFAULT_MODEL cfg) (model args))
                (prompt args) (reply w)) as (t & o & Hq & Hpost & _ & Ho).
    destruct o as [command|].
    + destruct (Ho command eq_refl) as (-> & Hne).
      rewrite (main_candidate cfg args w _ command Hq Hne). cbn zeta.
      pose proof (confirmation_no_post args command (typed w)) as Hgate.
      destruct (execute_command_once command (spawned w)) as (te & He & _ & Hte).
      destruct (outcome (confirmation args command (typed w))) as [[]|code];
        cbn [trace app]; eexists; (split; [reflexivity |]); (split; [| exact Hdiag]);
        cbn [existsb is_post]; rewrite ?existsb_app, ?Hgate, ?He;
        cbn [trace existsb is_post]; try done.
    + rewrite (main_absent cfg args w _ Hq). cbn [trace app].
      eexists. split; [reflexivity |]. split; [| exact Hdiag].
      by rewrite app_nil_r.
  - rewrite Hrefused. cbn [trace]. by rewrite existsb_app, Hdiag.
  - rewrite Hhelp. cbn [trace]. by rewrite existsb_app, Hdiag.
Qed.

(** ** The configuration, loaded twice *)

Lemma resolve_loaded (environ : gmap string string)
    (dotenv : option (gmap string (option string))) (key default : string) :
  resolve (environ_loaded environ dotenv) dotenv key default
  = resolve environ dotenv key default.
Proof.
  unfold resolve, environ_loaded, file_value. destruct dotenv as [values|]; [| done].
  rewrite load_dotenv_lookup.
  destruct (environ !! key); [reflexivity |].
  by destruct (values !! key) as [[v|]|].
Qed.

(** X11.  Loading the configuration again, with the environment the first
    load left behind, changes nothing: the environment stays as it is and
    [load_configuration] returns the same values and prints the same
    diagnostic. *)
Theorem load_configuration_again (environ : gmap string string)
    (dotenv : option (gmap string (option string))) :
  environ_loaded (environ_loaded environ dotenv) dotenv = environ_loaded environ dotenv /\
  load_configuration (environ_loaded environ dotenv) dotenv
  = load_configuration environ dotenv.
Proof.
  split.
  - destruct dotenv as [values|]; [| reflexivity]. cbn [environ_loaded].
    apply map_eq. intros key. rewrite !load_dotenv_lookup.
    destruct (environ !! key); [reflexivity |].
    by destruct (values !! key) as [[v|]|].
  - rewrite !load_configuration_run. cbn zeta. by rewrite !resolve_loaded.
Qed.

(** ** The exit status of the script *)

(** X13.  The exit status of the script, for every environment,
    configuration file, command line, reply, answer at the prompt and
    result of the command: 2 when argparse refuses the command line, 0
    after [-h]; and on an accepted command line 1 when the inference stage
    failed and 0 in every other run.  (An interrupt that arrives outside a
    prompt is not a run of the model.) *)
Theorem script_exit_status (environ : gmap string string)
    (dotenv : option (gmap string (option string))) (argv : command_line) (w : world) :
  match argv with
  | Parsed args =>
      (inference_failure (reply w) /\
       exit_status (script environ dotenv (Parsed args) w) = 1%Z) \/
      (~ inference_failure (reply w) /\
       exit_status (script environ dotenv (Parsed args) w) = 0%Z)
  | Refused => exit_status (script environ dotenv Refused w) = 2%Z
  | Help => exit_status (script environ dotenv Help w) = 0%Z
  end.
Proof.
  destruct (script_not_parsed environ dotenv w) as (Hrefused & Hhelp).
  destruct argv as [args| |]; [| by rewrite Hrefused | by rewrite Hhelp].
  destruct (script_main environ dotenv args w) as (-> & _).
  set (cfg := Config (resolve environ dotenv "OLLAMA_API_URL" DEFAULT_OLLAMA_API_URL)
                     (resolve environ dotenv "OLLAMA_DEFAULT_MODEL" DEFAULT_OLLAMA_MODEL)).
  pose proof (inference_failure_absent cfg (default (OLLAMA_DEFAULT_MODEL cfg) (model args))
                (prompt args) (reply w)) as Hfail.
  destruct (query_ollama_shape cfg (default (OLLAMA_DEFAULT_MODEL cfg) (model args))
              (prompt args) (reply w)) as (tq & o & Hq & _ & _ & Hholds).
  rewrite Hq in Hfail. cbn [outcome] in Hfail. destruct o as [command|].
  - right. split; [intros H; apply Hfail in H; discriminate H |].
    cbn in Hholds. rewrite (main_candidate cfg args w tq command Hq Hholds). cbn zeta.
    destruct (confirmation_quiet args command (typed w)) as (_ & Hcode).
    unfold exit_status.
    destruct (outcome (confirmation args command (typed w))) as [[]|code];
      cbn [outcome]; try reflexivity.
    by apply Hcode.
  - left. split; [by apply Hfail |].
    by rewrite (main_absent cfg args w tq Hq).
Qed.
